(** * Concurrent fetch-and-retry scraper: the code against its specification

    The repository holds four near-duplicate scraping scripts:
    - "Sample 1.py"                (aiohttp, user-agent rotation, shared result list),
    - "Sample 2 with a txt file.py" (aiohttp, results returned by [asyncio.gather]),
    - "Sample with Server.py"       (as sample 2, plus a local HTTP read endpoint),
    - "example.py"                  (Playwright, plus the HTTP read endpoint).

    Each script is embedded below in a module of its own, definitions keeping
    the names they have in the source.  The network, the browser and the HTML
    parser are outside the repository: they are oracles the definitions take
    as arguments, so every theorem holds for whatever they answer.

    Scope of the exception model: an attempt ends with a value or with an
    exception deriving from Python's [Exception]; of these the code tells
    [aiohttp.ClientError] apart from the rest.  Interpreter-level signals
    outside [Exception] (task cancellation, keyboard interrupt) are not
    failures of a fetch and are not modelled, and neither is the limit of
    the interpreter on the depth of recursion: what is proved of a run is
    proved of a run short enough to stay below it, as the runs the scripts
    start, of four attempts at most, are. *)

From Stdlib Require Import ZArith QArith Lia.
From stdpp Require Import base option list strings gmap pretty.
From Equations Require Import Equations.

Open Scope string_scope.
Open Scope list_scope.
Open Scope Z_scope.

(** ** Python data *)

(** The JSON-like values the scripts put into their aggregate. *)
#[local] Set Warnings "-register-all".
Inductive pyval :=
| PyNone
| PyStr (s : string)
| PyList (items : list pyval)
| PyDict (items : list (string * pyval)).
#[local] Set Warnings "register-all".

(** A [dict] with string keys, in insertion order. *)
Definition record := list (string * pyval).

(** [str or None], the return type of [fetch_page]. *)
Definition of_optional (o : option string) : pyval :=
  match o with
  | Some s => PyStr s
  | None => PyNone
  end.

(** Python numbers produced by [2 ** n]: an [int] for [n >= 0], a [float]
    (here its exact rational value) for [n < 0]. *)
Inductive pynum :=
| PyInt (n : Z)
| PyFloat (q : Q).

Definition pynum_value (x : pynum) : Q :=
  match x with
  | PyInt n => inject_Z n
  | PyFloat q => q
  end.

Definition pynum_le (x y : pynum) : Prop := Qle (pynum_value x) (pynum_value y).

(** [2 ** n], when it has a value: an exact [int] for [n >= 0]; for
    [n < 0] the float [2.0 ** float(n)], which is exact down to the least
    subnormal [2 ** -1074] and [0.0] below. *)
Definition py_pow2 (n : Z) : pynum :=
  if decide (0 ≤ n) then PyInt (2 ^ n)
  else if decide (-1074 ≤ n) then PyFloat (1 # Z.to_pos (2 ^ (- n)))
  else PyFloat 0.

(** The least integer that [float()] refuses: it rounds to [2 ** 1024],
    beyond the largest double. *)
Definition float_overflow_bound : Z := 2 ^ 1024 - 2 ^ 970.

(** ** Exceptions *)

Inductive exn_class :=
| ClientErrorClass   (* aiohttp.ClientError and its subclasses *)
| ExceptionClass.    (* every other subclass of Exception *)

Record exn := Exn { exn_cls : exn_class; exn_str : string }.

(** What [2 ** n] raises: for [n < 0] the exponent is converted to a
    float first, and that fails with [OverflowError] for an integer too
    large. *)
Definition py_pow2_error (n : Z) : option exn :=
  if decide (n ≤ - float_overflow_bound)
  then Some (Exn ExceptionClass "int too large to convert to float")
  else None.

Definition is_ClientError (e : exn) : bool :=
  match exn_cls e with
  | ClientErrorClass => true
  | ExceptionClass => false
  end.

(** [l[i]] for a Python list: negative indices count from the end, an index
    out of range raises [IndexError]. *)
Definition py_index {A} (l : list A) (i : Z) : exn + A :=
  let j := if decide (i < 0) then i + Z.of_nat (length l) else i in
  if decide (j < 0) then inl (Exn ExceptionClass "list index out of range")
  else match l !! Z.to_nat j with
       | Some x => inr x
       | None => inl (Exn ExceptionClass "list index out of range")
       end.

(** ** Coroutines

    A coroutine run to its end: the events it performed, in order, and how
    it ended. *)

Inductive result (A : Type) :=
| Returned (a : A)
| Raised (e : exn).
Arguments Returned {A} a.
Arguments Raised {A} e.

Inductive log_entry :=
| ClientErrorFor (url : string) (e : exn)     (* "HTTP client error for {url}: {e}" *)
| Retrying (url : string) (attempt : Z)       (* "Retrying {url} (attempt {retry_count + 1})" *)
| GivingUp (url : string) (retries : Z)       (* "Failed to retrieve {url} after {MAX_RETRIES} attempts" *)
| UnexpectedFor (url : string) (e : exn)      (* "Unexpected error while fetching {url}: {e}" *)
| LoadErrorFor (url : string) (e : exn).      (* "Erreur lors du chargement de {url} : {e}" *)

Inductive event :=
| EvGet (url : string) (headers : list (string * string)) (timeout : Z)  (* session.get(url, headers=, timeout=) *)
| EvBrowse (url : string) (timeout : Z)                                      (* chromium.launch ... page.goto(url, timeout=) *)
| EvSleep (delay : pynum)                                                   (* await asyncio.sleep(delay) *)
| EvError (entry : log_entry)                                               (* logging.error *)
| EvInfo (entry : log_entry).                                               (* logging.info *)

Definition coro (A : Type) : Type := list event * result A.

(** The events [pre] happen, then the coroutine [c] runs. *)
Definition after {A} (pre : list event) (c : coro A) : coro A := (pre ++ c.1, c.2).

Definition is_attempt (e : event) : bool :=
  match e with
  | EvGet _ _ _ | EvBrowse _ _ => true
  | _ => false
  end.

(** Number of network attempts in a trace. *)
Fixpoint attempts (t : list event) : nat :=
  match t with
  | [] => 0
  | e :: t' => (if is_attempt e then 1 else 0) + attempts t'
  end.

(** The backoff delays of a trace, in order. *)
Fixpoint sleeps (t : list event) : list pynum :=
  match t with
  | [] => []
  | EvSleep d :: t' => d :: sleeps t'
  | _ :: t' => sleeps t'
  end.

(** The headers of the requests of a trace, in order. *)
Fixpoint request_headers (t : list event) : list (list (string * string)) :=
  match t with
  | [] => []
  | EvGet _ h _ :: t' => h :: request_headers t'
  | _ :: t' => request_headers t'
  end.

(** The trace cut at its attempts: the delays slept before the first
    attempt, and for each attempt the delays slept after it and before the
    next one. *)
Fixpoint split_attempts (t : list event) : list pynum * list (list pynum) :=
  match t with
  | [] => ([], [])
  | e :: t' =>
      let '(pre, segs) := split_attempts t' in
      match e with
      | EvGet _ _ _ | EvBrowse _ _ => ([], pre :: segs)
      | EvSleep d => (d :: pre, segs)
      | _ => (pre, segs)
      end
  end.

Definition delays_after_attempt (t : list event) : list (list pynum) := (split_attempts t).2.


(** ** asyncio.gather

    The tasks finish in an order the event loop decides.  A schedule is a
    list of picks: at each step the pick (modulo the number of tasks still
    running) names the task that finishes next.  Every list of picks is a
    schedule, and every order of completion is the result of one. *)

Equations? completion_order {A} (sched : list nat) (pending : list A) : list A
  by wf (length pending) lt :=
  completion_order sched [] := [];
  completion_order sched (x :: xs) :=
    let i := (default 0%nat (head sched) mod S (length xs))%nat in
    default x ((x :: xs) !! i) :: completion_order (tail sched) (delete i (x :: xs)).
Proof.
  assert (Hi : (i < S (length xs))%nat) by (subst i; lia).
  clearbody i. destruct i as [|i]; simpl; [lia|].
  rewrite length_delete; [lia|]. apply lookup_lt_is_Some_2. lia.
Qed.

(** Each finished task stores its value in the slot of its own position; the
    first task to raise ends the wait with its exception. *)
Fixpoint fill_slots {A} (done : list (nat * result A)) (slots : list (option A))
  : exn + list (option A) :=
  match done with
  | [] => inr slots
  | (i, Returned v) :: done' => fill_slots done' (<[i := Some v]> slots)
  | (_, Raised e) :: _ => inl e
  end.

(** [await asyncio.gather] over the tasks: the values of the tasks, read from the
    slots in the order the tasks were given. *)
Definition gather {A} (sched : list nat) (tasks : list (coro A)) : result (list A) :=
  let done := completion_order sched (imap (λ i c, (i, c.2)) tasks) in
  match fill_slots done (replicate (length tasks) None) with
  | inl e => Raised e
  | inr slots => Returned (omap id slots)
  end.

(** ** The libraries the scripts call

    BeautifulSoup, [json] and [http.server] are not part of the repository:
    their operations are the fields of the interfaces below. *)

Class HtmlParser := {
  soup : Type;
  (** [BeautifulSoup(html, parser)] *)
  BeautifulSoup : string → string → exn + soup;
  (** [soup.find(tag, class_=c)]: [None] when there is no such element,
      else its [.text.strip()] *)
  find_text : soup → string → string → option string;
  (** [soup.title]: [None] when the document has no title, else the
      [.string] of the title tag (a [str] or [None]) *)
  title_string : soup → option (option string)
}.

Inductive http_action :=
| SendResponse (code : Z)
| SendHeader (key value : string)
| EndHeaders
| WfileWrite (bytes : string).

Class HttpLib := {
  (** [json.dumps(obj, ensure_ascii=, indent=)] *)
  json_dumps : bool → option Z → pyval → string;
  (** [str.encode()] *)
  encode : string → string;
  (** [SimpleHTTPRequestHandler.do_GET] for the request path: serves a
      file of the working directory *)
  SimpleHTTPRequestHandler_do_GET : string → list http_action
}.

(** ** aiohttp *)

Module Aiohttp.

(** What [session.get] yields when it does not raise: the status, the
    text of the exception [raise_for_status] builds from the response when
    the status calls for one, here [reason], and what
    [await response.text()] gives. *)
Record response := { status : Z; reason : string; text : exn + string }.

(** The network seen through a [ClientSession]: the answer to the request
    for [url] issued when the retry counter is [k].  Any sequence of
    answers to the requests of one fetch is such a function. *)
Definition session := string → Z → exn + response.

(** Raises [ClientResponseError], a [ClientError], for the codes 4xx and 5xx. *)
Definition raise_for_status (r : response) : option exn :=
  if decide (400 ≤ status r) then Some (Exn ClientErrorClass (reason r)) else None.

End Aiohttp.

(** The three aiohttp samples set the same limits. *)
Definition MAX_RETRIES : Z := 3.
Definition TIMEOUT : Z := 10.

Section FetchPage.

(** The headers of the request sent when the retry counter is [k]; what
    differs between sample 1 and the other two. *)
Variable headers_for : Z → exn + list (string * string).
Variable session : Aiohttp.session.

(** The [try] block of [fetch_page]:
    [async with session.get(...) as response: response.raise_for_status();
     return await response.text()] *)
Definition try_get (url : string) (retry_count : Z) : result string :=
  match session url retry_count with
  | inl e => Raised e
  | inr response =>
      match Aiohttp.raise_for_status response with
      | Some e => Raised e
      | None =>
          match Aiohttp.text response with
          | inl e => Raised e
          | inr body => Returned body
          end
      end
  end.

(** [fetch_page], whose text is the same in the three samples but for the
    headers: the request, then the two [except] clauses, the first of which
    calls [fetch_page] again with [retry_count + 1].  The first line of
    sample 1, which builds the headers, is outside the [try].  The delay
    [2 ** retry_count] is computed inside the first [except] clause: an
    exception it raises is caught by no clause and leaves [fetch_page]. *)
Equations? fetch_page_with (url : string) (retry_count : Z) : coro (option string)
  by wf (Z.to_nat (MAX_RETRIES - retry_count)) lt :=
  fetch_page_with url retry_count with headers_for retry_count => {
    | inl e := ([], Raised e);
    | inr headers with try_get url retry_count => {
      | Returned body := ([EvGet url headers TIMEOUT], Returned (Some body));
      | Raised e with is_ClientError e => {
        | true with decide (retry_count < MAX_RETRIES) => {
          | left _ with py_pow2_error retry_count => {
            | Some overflow :=
                ([EvGet url headers TIMEOUT;
                  EvError (ClientErrorFor url e)], Raised overflow);
            | None :=
                after [EvGet url headers TIMEOUT;
                       EvError (ClientErrorFor url e);
                       EvSleep (py_pow2 retry_count);
                       EvInfo (Retrying url (retry_count + 1))]
                      (fetch_page_with url (retry_count + 1)) };
          | right _ :=
              ([EvGet url headers TIMEOUT;
                EvError (ClientErrorFor url e);
                EvError (GivingUp url MAX_RETRIES)], Returned None) };
        | false :=
            ([EvGet url headers TIMEOUT;
              EvError (UnexpectedFor url e)], Returned None) } } }.
Proof. lia. Qed.

End FetchPage.

(** ** Sample 1.py *)

Module Sample1.

Definition USER_AGENTS : list string := [
  "Mozilla/5.0 (Windows NT 10.0; Win64; x64) AppleWebKit/537.36 (KHTML, like Gecko) Chrome/91.0.4472.124 Safari/537.36";
  "Mozilla/5.0 (Macintosh; Intel Mac OS X 10_15_7) AppleWebKit/537.36 (KHTML, like Gecko) Chrome/91.0.4472.124 Safari/537.36";
  "Mozilla/5.0 (X11; Linux x86_64) AppleWebKit/537.36 (KHTML, like Gecko) Chrome/91.0.4472.124 Safari/537.36";
  "Mozilla/5.0 (Windows NT 10.0; Win64; x64; rv:89.0) Gecko/20100101 Firefox/89.0";
  "Mozilla/5.0 (Macintosh; Intel Mac OS X 10.15; rv:89.0) Gecko/20100101 Firefox/89.0";
  "Mozilla/5.0 (X11; Linux i686; rv:89.0) Gecko/20100101 Firefox/89.0";
  "Mozilla/5.0 (Macintosh; Intel Mac OS X 10_15_7) AppleWebKit/605.1.15 (KHTML, like Gecko) Version/14.1.1 Safari/605.1.15";
  "Mozilla/5.0 (iPhone; CPU iPhone OS 14_6 like Mac OS X) AppleWebKit/605.1.15 (KHTML, like Gecko) Version/14.0.3 Mobile/15E148 Safari/604.1";
  "Mozilla/5.0 (iPad; CPU OS 14_6 like Mac OS X) AppleWebKit/605.1.15 (KHTML, like Gecko) Version/14.0.3 Mobile/15E148 Safari/604.1";
  "Mozilla/5.0 (Linux; Android 11; SM-G998B Build/R16KP.210331.001; wv) AppleWebKit/537.36 (KHTML, like Gecko) Version/4.0 Chrome/91.0.4472.101 Mobile Safari/537.36"
].

(** The rotation in the words of the specification: [pool[k mod poolSize]]. *)
Definition identityFor (pool : list string) (attemptIndex : Z) : option string :=
  pool !! Z.to_nat (attemptIndex `mod` Z.of_nat (length pool)).

(** [USER_AGENTS[retry_count % len(USER_AGENTS)]]; Python's [%] by a
    positive number is the remainder of the floor division, as [mod] on [Z]. *)
Definition user_agent (retry_count : Z) : exn + string :=
  py_index USER_AGENTS (retry_count `mod` Z.of_nat (length USER_AGENTS)).

(** The headers of the specification's rotation. *)
Definition rotated_headers (attemptIndex : Z) : list (string * string) :=
  [("User-Agent", default EmptyString (identityFor USER_AGENTS attemptIndex))].

(** [headers = {'User-Agent': user_agent}] *)
Definition headers (retry_count : Z) : exn + list (string * string) :=
  match user_agent retry_count with
  | inl e => inl e
  | inr ua => inr [("User-Agent", ua)]
  end.

Definition fetch_page (session : Aiohttp.session) (url : string) (retry_count : Z)
  : coro (option string) :=
  fetch_page_with headers session url retry_count.

Section Scraping.
Context `{HtmlParser}.

(** "N/A" stands for an element that is not found; any exception of the
    parser gives [None].  The error the [except] branch logs is not
    recorded. *)
Definition extract_data (html url : string) : option record :=
  match BeautifulSoup html "lxml" with
  | inl _ => None
  | inr soup =>
      let name := default "N/A" (find_text soup "h1" "DUwDvf") in
      let address := default "N/A" (find_text soup "div" "LrzXr") in
      Some [("name", PyStr name); ("address", PyStr address); ("url", PyStr url)]
  end.

(** The shared list [results] is threaded through: the value is the
    list after the call.  [if html:] fails for [None] and for the empty
    string; [if data:] holds for every dict [extract_data] returns, as
    it has three keys. *)
Definition process_url (session : Aiohttp.session) (url : string) (results : list record)
  : result (list record) :=
  match (fetch_page session url 0).2 with
  | Raised e => Raised e
  | Returned None => Returned results
  | Returned (Some html) =>
      if String.eqb html EmptyString then Returned results
      else match extract_data html url with
           | Some data => Returned (results ++ [data])
           | None => Returned results
           end
  end.

(** What the task of [url] adds to [results]: its record, when the
    fetch gave a page that is not empty and the extraction worked. *)
Definition entry_for (session : Aiohttp.session) (url : string) : option record :=
  match (fetch_page session url 0).2 with
  | Returned (Some html) => if String.eqb html EmptyString then None else extract_data html url
  | _ => None
  end.

(** The tasks run to their end in the order they finish, each on the
    list the ones before it left; the first to raise ends [gather]
    and [main] with its exception. *)
Fixpoint run_tasks (session : Aiohttp.session) (order : list string) (results : list record)
  : result (list record) :=
  match order with
  | [] => Returned results
  | url :: order' =>
      match process_url session url results with
      | Returned results' => run_tasks session order' results'
      | Raised e => Raised e
      end
  end.

Definition main (sched : list nat) (session : Aiohttp.session) (urls : list string)
  : result (list record) :=
  run_tasks session (completion_order sched urls) [].

End Scraping.

End Sample1.

(** ** Sample 2 with a txt file.py, and the scraping half of Sample with
    Server.py, which repeats it line for line *)

Module Sample2.

(** No [headers] argument is passed to [session.get]. *)
Definition fetch_page (session : Aiohttp.session) (url : string) (retry_count : Z)
  : coro (option string) :=
  fetch_page_with (λ _, inr []) session url retry_count.

Definition main (sched : list nat) (session : Aiohttp.session) (urls : list string)
  : result (list (option string)) :=
  gather sched (map (λ url, fetch_page session url 0) urls).

End Sample2.

(** ** The read endpoint (Sample with Server.py and example.py) *)

Module Server.

(** The aggregate is a Python list object; the module-level name
    [scraped_data] refers to one. *)
Definition ref := nat.
Record store := { heap : ref → list pyval; scraped_data : ref }.

Section Handler.
Context `{HttpLib}.
(** The keyword arguments of [json.dumps], which differ between the two
    scripts. *)
Variables (ensure_ascii : bool) (indent : option Z).

(** [DataHandler.do_GET]: the actions on the connection and the store
    after the request. *)
Definition do_GET (path : string) (st : store) : list http_action * store :=
  if String.eqb path "/" then
    ([SendResponse 200;
      SendHeader "Content-type" "application/json";
      EndHeaders;
      WfileWrite (encode (json_dumps ensure_ascii indent
                    (PyDict [("scraped_data", PyList (heap st (scraped_data st)))])))],
     st)
  else (SimpleHTTPRequestHandler_do_GET path, st).

(** The response of the specification: status 200, JSON content type,
    and the object with the single key "scraped_data" holding the
    whole aggregate. *)
Definition json_response (aggregate : list pyval) : list http_action :=
  [SendResponse 200;
   SendHeader "Content-type" "application/json";
   EndHeaders;
   WfileWrite (encode (json_dumps ensure_ascii indent
                 (PyDict [("scraped_data", PyList aggregate)])))].

(** [httpd.serve_forever()] on the requests that arrive, one after the
    other: the responses, and the store after the last one. *)
Fixpoint serve_forever (paths : list string) (st : store)
  : list (list http_action) * store :=
  match paths with
  | [] => ([], st)
  | path :: paths' =>
      let '(resp, st1) := do_GET path st in
      let '(resps, st2) := serve_forever paths' st1 in
      (resp :: resps, st2)
  end.

(** [global scraped_data; scraped_data = data], then the server loop. *)
Definition run_server (data : ref) (paths : list string) (st : store)
  : list (list http_action) * store :=
  serve_forever paths {| heap := heap st; scraped_data := data |}.

End Handler.

End Server.

Module SampleServer.
(** [json.dumps({"scraped_data": scraped_data})] *)
Definition do_GET `{HttpLib} := Server.do_GET true None.
Definition run_server `{HttpLib} := Server.run_server true None.
End SampleServer.

(** ** example.py *)

Module ExamplePy.

(** What the browser does on one attempt: the HTML of the loaded page, or
    the exception raised by the launch, the navigation or the wait; and
    the exception [browser.close()] raises, if any. *)
Record browser_run := { page_content : exn + string; browser_close : option exn }.

(** The browser seen through Playwright: its run for [url] when the retry
    counter is [k]. *)
Definition playwright := string → Z → browser_run.

Section Browser.
Context `{HtmlParser}.

(** The [try] block of [fetch_with_browser]. *)
Definition try_load (pw : playwright) (url : string) (retry_count : Z) : result record :=
  match page_content (pw url retry_count) with
  | inl e => Raised e
  | inr html =>
      match BeautifulSoup html "html.parser" with
      | inl e => Raised e
      | inr soup =>
          let title :=
            match title_string soup with
            | Some s => of_optional s
            | None => PyStr "Titre introuvable"
            end in
          match browser_close (pw url retry_count) with
          | Some e => Raised e
          | None => Returned [("url", PyStr url); ("title", title)]
          end
      end
  end.

(** One [except Exception] clause serves every failure of the [try] block.
    The embedding is of the calls in which the delay can be computed and
    slept, which are those with a counter between [- float_overflow_bound]
    and 1024, the calls of the script among them. *)
Equations? fetch_with_browser (pw : playwright) (url : string)
    (retry_count max_retries : Z) : coro record
  by wf (Z.to_nat (max_retries - retry_count)) lt :=
  fetch_with_browser pw url retry_count max_retries with try_load pw url retry_count => {
    | Returned r := ([EvBrowse url 30000], Returned r);
    | Raised e with decide (retry_count < max_retries) => {
      | left _ :=
          after [EvBrowse url 30000;
                 EvError (LoadErrorFor url e);
                 EvSleep (py_pow2 retry_count);
                 EvInfo (Retrying url (retry_count + 1))]
                (fetch_with_browser pw url (retry_count + 1) max_retries);
      | right _ :=
          ([EvBrowse url 30000;
            EvError (LoadErrorFor url e)],
           Returned [("url", PyStr url); ("error", PyStr (exn_str e))]) } }.
Proof. lia. Qed.

(** The defaults [retry_count=0, max_retries=3] apply to every task. *)
Definition main (sched : list nat) (pw : playwright) (urls : list string)
  : result (list record) :=
  gather sched (map (λ url, fetch_with_browser pw url 0 3) urls).

End Browser.

(** [json.dumps({"scraped_data": scraped_data}, ensure_ascii=False, indent=2)] *)
Definition do_GET `{HttpLib} := Server.do_GET false (Some 2).
Definition run_server `{HttpLib} := Server.run_server false (Some 2).

End ExamplePy.

(** ** The [__main__] blocks of the three samples

    Each block runs [main] on a list of URLs, reports on the console and,
    depending on the script, saves the aggregate to a file or serves it.
    The blocks apply to the list [sample_urls]; below the list is an
    argument.  [repr] and the formatting of a float are Python's own.
    The block of example.py is not embedded: the script stops at its
    eighth line, which imports [BeautifulSoup] from a module that does not
    exist, before any of the block runs. *)

Class Builtins := {
  (** [repr(obj)], which is how [print] and an f-string show a list or a dict *)
  py_repr : pyval → string;
  (** [f"{seconds:.2f}"] *)
  format_2f : Q → string
}.

Inductive script_action :=
| Print (text : string)                                 (* print(text) *)
| FileWrite (name content : string)                     (* the file [name] is opened with "w" and [content] written *)
| ServerThread (responses : list (list http_action)).   (* the daemon thread runs [run_server] and answers until the interrupt *)

Definition newline : string := String (Ascii.ascii_of_nat 10) EmptyString.

(** Sum of the delays of a trace, in seconds. *)
Definition total_delay (ds : list pynum) : Q :=
  foldr (λ d acc, Qplus (pynum_value d) acc) 0%Q ds.

Module Scripts.

Definition sample_urls : list string := [
  "https://www.google.com/maps?cid=10841271384594827821";
  "https://www.google.com/maps?cid=1519735334139957582";
  "https://www.google.com/maps?cid=17223482373573387535"
].

(** [f"{data}"] for what [fetch_page] returned. *)
Definition format_data (data : option string) : string :=
  match data with
  | Some s => s
  | None => "None"
  end.

(** [for i, data in enumerate(scraped_data): f.write(f"URL {i+1}: {data}\n")] *)
Definition file_lines (scraped_data : list (option string)) : list string :=
  imap (λ i data, "URL " +:+ pretty (i + 1)%nat +:+ ": " +:+ format_data data +:+ newline)
       scraped_data.

(** The store of the process when the server thread starts: the list
    [results] is the object 0; the name [scraped_data], which [run_server]
    binds anew before anything reads it, refers to the object 1, an empty
    list. *)
Definition store_with (results : list pyval) : Server.store :=
  {| Server.heap := λ r, if decide (r = 0%nat) then results else [];
     Server.scraped_data := 1%nat |}.

Section Blocks.
Context {parser : HtmlParser} {http : HttpLib} {builtins : Builtins}.
(** The order in which the tasks finish, the network, the seconds between
    the two calls of [time.time()] and the paths requested from the server
    before the keyboard interrupt. *)
Variables (sched : list nat) (elapsed : Q) (requests : list string).

(** Sample 1.py *)
Definition sample1 (session : Aiohttp.session) (urls : list string)
  : result (list script_action) :=
  match Sample1.main sched session urls with
  | Raised e => Raised e
  | Returned [] => Returned [Print "Aucune donnée récupérée."]
  | Returned scraped_data =>
      Returned [Print ("Données récupérées : " +:+ py_repr (PyList (PyDict <$> scraped_data)));
                Print ("Temps total d'exécution : " +:+ format_2f elapsed +:+ " secondes")]
  end.

(** Sample 2 with a txt file.py *)
Definition sample2 (session : Aiohttp.session) (urls : list string)
  : result (list script_action) :=
  match Sample2.main sched session urls with
  | Raised e => Raised e
  | Returned [] => Returned [Print "No data retrieved."]
  | Returned scraped_data =>
      Returned [Print ("Retrieved data: " +:+ py_repr (PyList (of_optional <$> scraped_data)));
                Print ("Total execution time: " +:+ format_2f elapsed +:+ " seconds");
                FileWrite "scraped_data.txt" (String.concat EmptyString (file_lines scraped_data));
                Print "Scraped data saved to scraped_data.txt"]
  end.

(** Sample with Server.py.  The server thread prints its address and
    serves; the main thread sleeps until the interrupt. *)
Definition sample_server (session : Aiohttp.session) (urls : list string)
  : result (list script_action) :=
  match Sample2.main sched session urls with
  | Raised e => Raised e
  | Returned [] => Returned [Print "No data retrieved."]
  | Returned scraped_data_results =>
      Returned [Print ("Retrieved data: " +:+
                       py_repr (PyList (of_optional <$> scraped_data_results)));
                Print ("Total execution time: " +:+ format_2f elapsed +:+ " seconds");
                Print "Serving scraped data on http://localhost:8000/";
                ServerThread (SampleServer.run_server 0%nat requests
                                (store_with (of_optional <$> scraped_data_results))).1;
                Print (newline +:+ "Server stopped.")]
  end.

End Blocks.

End Scripts.

(** ** Concrete libraries and networks, for the examples *)

Module Scenario.

(** A parser that takes the whole document for the text of any element. *)
Definition text_parser : HtmlParser := {|
  soup := string;
  BeautifulSoup := λ html _, inr html;
  find_text := λ s _ _, Some s;
  title_string := λ s, Some (Some s)
|}.

(** A serialiser that only counts the entries. *)
Definition count_dumps (v : pyval) : string :=
  match v with
  | PyDict [(k, PyList l)] => k ++ ":" ++ String.concat EmptyString (map (λ _, "*") l)
  | _ => "?"
  end.

Definition counting_http : HttpLib := {|
  json_dumps := λ _ _, count_dumps;
  encode := λ s, s;
  SimpleHTTPRequestHandler_do_GET := λ _, [SendResponse 404]
|}.

Definition ok (body : string) : exn + Aiohttp.response :=
  inr {| Aiohttp.status := 200; Aiohttp.reason := "OK"; Aiohttp.text := inr body |}.

Definition not_found : exn + Aiohttp.response :=
  inr {| Aiohttp.status := 404; Aiohttp.reason := "Not Found"; Aiohttp.text := inr EmptyString |}.

(** Every request is refused at the transport layer. *)
Definition unreachable : Aiohttp.session :=
  λ _ _, inl (Exn ClientErrorClass "Cannot connect to host").

(** Every request runs into the timeout: [asyncio.TimeoutError], which
    is not a [ClientError]. *)
Definition timing_out : Aiohttp.session :=
  λ _ _, inl (Exn ExceptionClass "TimeoutError").


(** The URL "a" is served, every other URL answers 404. *)
Definition only_a : Aiohttp.session :=
  λ url _, if String.eqb url "a" then ok "<h1>A</h1>" else not_found.

(** The URL "b" is served from its third attempt on, "a" at once, the
    others never. *)
Definition flaky : Aiohttp.session :=
  λ url k,
    if String.eqb url "a" then ok "A"
    else if String.eqb url "b" then (if decide (2 ≤ k) then ok "B" else not_found)
    else not_found.

(** A URL the browser refuses to navigate to, on every attempt: not a
    transport error. *)
Definition malformed : ExamplePy.playwright :=
  λ _ _, {| ExamplePy.page_content := inl (Exn ExceptionClass "Cannot navigate to invalid URL");
            ExamplePy.browser_close := None |}.

(** A browser that loads "a" and fails to navigate anywhere else. *)
Definition browser_only_a : ExamplePy.playwright :=
  λ url _,
    if String.eqb url "a"
    then {| ExamplePy.page_content := inr "A"; ExamplePy.browser_close := None |}
    else {| ExamplePy.page_content := inl (Exn ExceptionClass "net::ERR_NAME_NOT_RESOLVED");
            ExamplePy.browser_close := None |}.

(** A store in which the object 0 is the list of two fetched pages. *)
Definition two_pages : Server.store :=
  {| Server.heap := λ r, if decide (r = 0%nat) then [PyStr "A"; PyNone] else [];
     Server.scraped_data := 1%nat |}.

(** Python's [repr] and float format are not needed to tell the runs of
    the scripts apart: a [repr] that shows nothing, seconds shown as "s". *)
Definition mute_builtins : Builtins := {|
  py_repr := λ _, EmptyString;
  format_2f := λ _, "s"
|}.

(** Every URL is served a page with an empty body. *)
Definition empty_pages : Aiohttp.session := λ _ _, ok EmptyString.

(** A browser that fails to load anything, with an error that names the
    attempt. *)
Definition browser_down : ExamplePy.playwright :=
  λ _ k, {| ExamplePy.page_content :=
              inl (Exn ExceptionClass (if decide (k < 3) then "early failure" else "last failure"));
            ExamplePy.browser_close := None |}.

End Scenario.

(** * Facts *)

(** ** Powers of two *)

Lemma py_pow2_nonneg (k : Z) : 0 ≤ k → py_pow2 k = PyInt (1 * 2 ^ k).
Proof.
  intros Hk. unfold py_pow2. destruct (decide (0 ≤ k)); [|lia].
  f_equal. lia.
Qed.

Lemma py_pow2_mono (a b : Z) : a ≤ b → pynum_le (py_pow2 a) (py_pow2 b).
Proof.
  intros Hab. unfold pynum_le, py_pow2.
  destruct (decide (0 ≤ a)) as [Ha|Ha], (decide (0 ≤ b)) as [Hb|Hb]; try lia.
  - simpl. rewrite <- Zle_Qle. apply Z.pow_le_mono_r; lia.
  - assert (0 < 2 ^ b) by (apply Z.pow_pos_nonneg; lia).
    destruct (decide (-1074 ≤ a)); unfold Qle; simpl; [|lia].
    assert (0 < 2 ^ (- a)) by (apply Z.pow_pos_nonneg; lia).
    rewrite Z2Pos.id by lia. nia.
  - destruct (decide (-1074 ≤ a)), (decide (-1074 ≤ b)); unfold Qle; simpl; try lia.
    assert (0 < 2 ^ (- a)) by (apply Z.pow_pos_nonneg; lia).
    assert (0 < 2 ^ (- b)) by (apply Z.pow_pos_nonneg; lia).
    rewrite !Z2Pos.id by lia.
    assert (2 ^ (- b) ≤ 2 ^ (- a)) by (apply Z.pow_le_mono_r; lia).
    lia.
Qed.

Lemma zero_below_float_overflow : - float_overflow_bound < 0.
Proof. reflexivity. Qed.

Lemma py_pow2_error_none (n : Z) : - float_overflow_bound < n → py_pow2_error n = None.
Proof. intros Hn. unfold py_pow2_error. by destruct (decide (n ≤ - float_overflow_bound)); [lia|]. Qed.

(** Induction on the number of retries left below [bound]. *)
Lemma countdown_ind (bound : Z) (P : Z → Prop) :
  (∀ rc, (rc < bound → P (rc + 1)) → P rc) → ∀ rc, P rc.
Proof.
  intros step rc.
  remember (Z.to_nat (bound - rc)) as n eqn:Hn.
  revert rc Hn. induction n as [|n IH]; intros rc Hn; apply step; intros Hlt.
  - lia.
  - apply IH. lia.
Qed.

(** ** Traces *)

Lemma attempts_app (t1 t2 : list event) : attempts (t1 ++ t2) = (attempts t1 + attempts t2)%nat.
Proof. induction t1 as [|e t1 IH]; simpl; [done|]. rewrite IH. lia. Qed.

Lemma sleeps_split (t : list event) :
  sleeps t = (split_attempts t).1 ++ concat (split_attempts t).2.
Proof.
  induction t as [|e t IH]; [done|].
  simpl. destruct (split_attempts t) as [pre segs]. simpl in IH.
  destruct e; simpl; rewrite ?IH; done.
Qed.

(** ** The retry loop of [fetch_page] *)

Section FetchPageFacts.

Variable headers_for : Z → exn + list (string * string).
Variable hdr : Z → list (string * string).
Hypothesis headers_ok : ∀ k, headers_for k = inr (hdr k).
Variable session : Aiohttp.session.

(** The function, one step unfolded. *)
Lemma fetch_page_with_step (url : string) (rc : Z) :
  fetch_page_with headers_for session url rc =
  match try_get session url rc with
  | Returned page => ([EvGet url (hdr rc) TIMEOUT], Returned (Some page))
  | Raised e =>
      if is_ClientError e then
        if decide (rc < MAX_RETRIES) then
          match py_pow2_error rc with
          | Some overflow =>
              ([EvGet url (hdr rc) TIMEOUT; EvError (ClientErrorFor url e)], Raised overflow)
          | None =>
              after [EvGet url (hdr rc) TIMEOUT; EvError (ClientErrorFor url e);
                     EvSleep (py_pow2 rc); EvInfo (Retrying url (rc + 1))]
                    (fetch_page_with headers_for session url (rc + 1))
          end
        else ([EvGet url (hdr rc) TIMEOUT; EvError (ClientErrorFor url e);
               EvError (GivingUp url MAX_RETRIES)], Returned None)
      else ([EvGet url (hdr rc) TIMEOUT; EvError (UnexpectedFor url e)], Returned None)
  end.
Proof.
  rewrite fetch_page_with_unfold_eq at 1. unfold fetch_page_with_unfold.
  rewrite headers_ok. simpl.
  destruct (try_get session url rc) as [page|e]; simpl; [done|].
  destruct (is_ClientError e); simpl; [|done].
  destruct (decide (rc < MAX_RETRIES)); simpl; [|done].
  destruct (py_pow2_error rc); done.
Qed.

(** The step of a call for which the delay can be computed. *)
Lemma fetch_page_with_retry_step (url : string) (rc : Z) (e : exn) :
  - float_overflow_bound < rc →
  try_get session url rc = Raised e → is_ClientError e = true → rc < MAX_RETRIES →
  fetch_page_with headers_for session url rc =
    after [EvGet url (hdr rc) TIMEOUT; EvError (ClientErrorFor url e);
           EvSleep (py_pow2 rc); EvInfo (Retrying url (rc + 1))]
          (fetch_page_with headers_for session url (rc + 1)).
Proof.
  intros Hrc Hb He Hlt. rewrite fetch_page_with_step, Hb, He.
  destruct (decide (rc < MAX_RETRIES)); [|lia].
  by rewrite (py_pow2_error_none rc Hrc).
Qed.

Lemma fetch_page_with_returns (url : string) (rc : Z) :
  - float_overflow_bound < rc →
  ∃ v, (fetch_page_with headers_for session url rc).2 = Returned v.
Proof.
  induction rc as [rc IH] using (countdown_ind MAX_RETRIES). intros Hrc.
  rewrite fetch_page_with_step.
  destruct (try_get session url rc) as [page|e]; [by eexists|].
  destruct (is_ClientError e); [|by eexists].
  destruct (decide (rc < MAX_RETRIES)) as [Hlt|]; [|by eexists].
  rewrite (py_pow2_error_none rc Hrc).
  apply (IH Hlt). lia.
Qed.

Lemma fetch_page_with_attempts_bounds (url : string) (rc : Z) :
  (1 ≤ attempts (fetch_page_with headers_for session url rc).1 ≤ Z.to_nat (MAX_RETRIES - rc) + 1)%nat.
Proof.
  induction rc as [rc IH] using (countdown_ind MAX_RETRIES).
  rewrite fetch_page_with_step.
  destruct (try_get session url rc) as [page|e]; [simpl; lia|].
  destruct (is_ClientError e); [|simpl; lia].
  destruct (decide (rc < MAX_RETRIES)) as [Hlt|]; [|simpl; lia].
  destruct (py_pow2_error rc); [simpl; lia|].
  specialize (IH Hlt). simpl. lia.
Qed.

(** When every attempt from [rc] on fails with a [ClientError], the loop
    runs until the counter reaches [MAX_RETRIES]. *)
Lemma fetch_page_with_exhausts (url : string) (rc : Z) :
  - float_overflow_bound < rc →
  (∀ k, rc ≤ k → ∃ e, try_get session url k = Raised e ∧ is_ClientError e = true) →
  rc ≤ MAX_RETRIES →
  (fetch_page_with headers_for session url rc).2 = Returned None ∧
  attempts (fetch_page_with headers_for session url rc).1 = (Z.to_nat (MAX_RETRIES - rc) + 1)%nat ∧
  last (fetch_page_with headers_for session url rc).1 = Some (EvError (GivingUp url MAX_RETRIES)).
Proof.
  induction rc as [rc IH] using (countdown_ind MAX_RETRIES). intros Hrc Hfail Hle.
  rewrite fetch_page_with_step.
  destruct (Hfail rc) as (e & -> & ->); [lia|].
  destruct (decide (rc < MAX_RETRIES)) as [Hlt|Hge].
  - rewrite (py_pow2_error_none rc Hrc).
    destruct (IH Hlt) as (Hv & Hn & Hl); [lia | intros k Hk; apply Hfail; lia | lia |].
    cbn [after fst snd]. rewrite Hv. split; [done|]. split.
    + rewrite attempts_app, Hn. simpl. lia.
    + rewrite last_app, Hl. done.
  - simpl. split; [done|]. split; [lia|done].
Qed.

(** A page that is returned is the body of one of the attempts. *)
Lemma fetch_page_with_body (url : string) (rc : Z) (page : string) :
  (fetch_page_with headers_for session url rc).2 = Returned (Some page) → ∃ k, rc ≤ k ∧ try_get session url k = Returned page.
Proof.
  induction rc as [rc IH] using (countdown_ind MAX_RETRIES).
  rewrite fetch_page_with_step.
  destruct (try_get session url rc) as [page'|e] eqn:Hb.
  { simpl. intros [= ->]. exists rc. split; [lia|done]. }
  destruct (is_ClientError e); [|done].
  destruct (decide (rc < MAX_RETRIES)) as [Hlt|]; [|done].
  destruct (py_pow2_error rc); [done|].
  cbn [after snd]. intros Hp. destruct (IH Hlt Hp) as (k & Hk & Hbk).
  exists k. split; [lia|done].
Qed.



(** The shape of the whole trace: no delay before the first attempt, after
    attempt number [i] (counted from 0) the one delay [2 ** (rc + i)],
    after the last attempt none; request number [i] carries the headers
    for the counter [rc + i]. *)
Lemma fetch_page_with_trace (url : string) (rc : Z) :
  let t := (fetch_page_with headers_for session url rc).1 in
  split_attempts t =
    ([], ((λ k, [py_pow2 k]) <$> seqZ rc (Z.of_nat (attempts t) - 1)) ++ [[]]) ∧
  request_headers t = hdr <$> seqZ rc (Z.of_nat (attempts t)).
Proof.
  induction rc as [rc IH] using (countdown_ind MAX_RETRIES).
  rewrite fetch_page_with_step.
  destruct (try_get session url rc) as [page|e]; [done|].
  destruct (is_ClientError e); [|done].
  destruct (decide (rc < MAX_RETRIES)) as [Hlt|]; [|done].
  destruct (py_pow2_error rc); [done|].
  specialize (IH Hlt). cbv zeta in IH. destruct IH as [IHs IHh].
  pose proof (fetch_page_with_attempts_bounds url (rc + 1)) as [Hn _].
  cbn [after fst snd app split_attempts request_headers attempts is_attempt Nat.add].
  set (t' := (fetch_page_with headers_for session url (rc + 1)).1) in *.
  rewrite IHs, IHh.
  replace (Z.of_nat (S (attempts t')) - 1) with (Z.of_nat (attempts t')) by lia.
  rewrite (seqZ_cons rc (Z.of_nat (attempts t'))) by lia.
  rewrite (seqZ_cons rc (Z.of_nat (S (attempts t')))) by lia.
  rewrite !fmap_cons.
  replace (Z.pred (Z.of_nat (S (attempts t')))) with (Z.of_nat (attempts t')) by lia.
  replace (Z.pred (Z.of_nat (attempts t'))) with (Z.of_nat (attempts t') - 1) by lia.
  replace (Z.succ rc) with (rc + 1) by lia.
  done.
Qed.

End FetchPageFacts.

(** ** The retry loop of [fetch_with_browser] *)

Section BrowserFacts.

Context `{HtmlParser}.
Variable pw : ExamplePy.playwright.

Lemma fetch_with_browser_step (url : string) (rc mr : Z) :
  ExamplePy.fetch_with_browser pw url rc mr =
  match ExamplePy.try_load pw url rc with
  | Returned r => ([EvBrowse url 30000], Returned r)
  | Raised e =>
      if decide (rc < mr) then
        after [EvBrowse url 30000; EvError (LoadErrorFor url e);
               EvSleep (py_pow2 rc); EvInfo (Retrying url (rc + 1))]
              (ExamplePy.fetch_with_browser pw url (rc + 1) mr)
      else ([EvBrowse url 30000; EvError (LoadErrorFor url e)],
            Returned [("url", PyStr url); ("error", PyStr (exn_str e))])
  end.
Proof.
  rewrite ExamplePy.fetch_with_browser_unfold_eq at 1.
  unfold ExamplePy.fetch_with_browser_unfold.
  destruct (ExamplePy.try_load pw url rc) as [r|e]; simpl; [done|].
  destruct (decide (rc < mr)); done.
Qed.

Lemma fetch_with_browser_returns (url : string) (rc mr : Z) :
  ∃ r, (ExamplePy.fetch_with_browser pw url rc mr).2 = Returned r.
Proof.
  induction rc as [rc IH] using (countdown_ind mr).
  rewrite fetch_with_browser_step.
  destruct (ExamplePy.try_load pw url rc) as [r|e]; [by eexists|].
  destruct (decide (rc < mr)) as [Hlt|]; [|by eexists].
  exact (IH Hlt).
Qed.

Lemma fetch_with_browser_attempts_bounds (url : string) (rc mr : Z) :
  (1 ≤ attempts (ExamplePy.fetch_with_browser pw url rc mr).1 ≤ Z.to_nat (mr - rc) + 1)%nat.
Proof.
  induction rc as [rc IH] using (countdown_ind mr).
  rewrite fetch_with_browser_step.
  destruct (ExamplePy.try_load pw url rc) as [r|e]; [simpl; lia|].
  destruct (decide (rc < mr)) as [Hlt|]; [|simpl; lia].
  specialize (IH Hlt). simpl. lia.
Qed.

Lemma fetch_with_browser_trace (url : string) (rc mr : Z) :
  let t := (ExamplePy.fetch_with_browser pw url rc mr).1 in
  split_attempts t =
    ([], ((λ k, [py_pow2 k]) <$> seqZ rc (Z.of_nat (attempts t) - 1)) ++ [[]]).
Proof.
  induction rc as [rc IH] using (countdown_ind mr).
  rewrite fetch_with_browser_step.
  destruct (ExamplePy.try_load pw url rc) as [r|e]; [done|].
  destruct (decide (rc < mr)) as [Hlt|]; [|done].
  specialize (IH Hlt). cbv zeta in IH.
  pose proof (fetch_with_browser_attempts_bounds url (rc + 1) mr) as [Hn _].
  cbn [after fst snd app split_attempts attempts is_attempt Nat.add].
  set (t' := (ExamplePy.fetch_with_browser pw url (rc + 1) mr).1) in *.
  rewrite IH.
  replace (Z.of_nat (S (attempts t')) - 1) with (Z.of_nat (attempts t')) by lia.
  rewrite (seqZ_cons rc (Z.of_nat (attempts t'))) by lia.
  rewrite fmap_cons.
  replace (Z.pred (Z.of_nat (attempts t'))) with (Z.of_nat (attempts t') - 1) by lia.
  replace (Z.succ rc) with (rc + 1) by lia.
  done.
Qed.

(** What is returned is the record of a page that loaded, or the error
    record of the attempt made when the counter had reached [mr]. *)
Lemma fetch_with_browser_value (url : string) (rc mr : Z) (r : record) :
  (ExamplePy.fetch_with_browser pw url rc mr).2 = Returned r →
  (∃ k, rc ≤ k ∧ ExamplePy.try_load pw url k = Returned r) ∨
  (∃ k e, rc ≤ k ∧ ExamplePy.try_load pw url k = Raised e ∧
          r = [("url", PyStr url); ("error", PyStr (exn_str e))]).
Proof.
  induction rc as [rc IH] using (countdown_ind mr).
  rewrite fetch_with_browser_step.
  destruct (ExamplePy.try_load pw url rc) as [r'|e] eqn:Hb.
  { simpl. intros [= ->]. left. exists rc. split; [lia|done]. }
  destruct (decide (rc < mr)) as [Hlt|].
  - cbn [after snd]. intros Hr.
    destruct (IH Hlt Hr) as [(k & Hk & Hl)|(k & e' & Hk & Hl & ->)].
    + left. exists k. split; [lia|done].
    + right. exists k, e'. split; [lia|done].
  - simpl. intros [= <-]. right. exists rc, e. split; [lia|done].
Qed.

End BrowserFacts.

(** ** Backoff delays of a trace of the retry shape *)

Lemma concat_singletons {A B} (f : A → B) (l : list A) :
  concat (((λ k, [f k]) <$> l) ++ [[]]) = f <$> l.
Proof. induction l as [|x l IH]; [done|]. cbn. f_equal. exact IH. Qed.

Section BackoffShape.

Variables (t : list event) (rc : Z).
Hypothesis shape :
  split_attempts t =
    ([], ((λ k, [py_pow2 k]) <$> seqZ rc (Z.of_nat (attempts t) - 1)) ++ [[]]).

Lemma shape_sleeps : sleeps t = py_pow2 <$> seqZ rc (Z.of_nat (attempts t) - 1).
Proof. rewrite sleeps_split, shape. simpl. apply concat_singletons. Qed.

(** Between attempt [i] and attempt [i + 1] of the trace: one delay, [2 ** (rc + i)]. *)
Lemma shape_delay_between (i : nat) :
  (S i < attempts t)%nat →
  delays_after_attempt t !! i = Some [py_pow2 (rc + Z.of_nat i)].
Proof.
  intros Hi. unfold delays_after_attempt. rewrite shape. simpl.
  rewrite lookup_app_l by (rewrite length_fmap, length_seqZ; lia).
  rewrite list_lookup_fmap, lookup_seqZ_lt by lia. done.
Qed.

(** After the last attempt: none. *)
Lemma shape_delay_last :
  (1 ≤ attempts t)%nat →
  delays_after_attempt t !! (attempts t - 1)%nat = Some [].
Proof.
  intros Hn. unfold delays_after_attempt. rewrite shape. simpl.
  rewrite lookup_app_r by (rewrite length_fmap, length_seqZ; lia).
  rewrite length_fmap, length_seqZ.
  replace (attempts t - 1 - Z.to_nat (Z.of_nat (attempts t) - 1))%nat with 0%nat by lia.
  done.
Qed.

Lemma shape_sleep_lookup (i : nat) (d : pynum) :
  sleeps t !! i = Some d → d = py_pow2 (rc + Z.of_nat i).
Proof.
  rewrite shape_sleeps, list_lookup_fmap.
  destruct (seqZ rc (Z.of_nat (attempts t) - 1) !! i) as [k|] eqn:Hk; [|done].
  apply lookup_seqZ in Hk as [-> _]. by intros [= <-].
Qed.

Lemma shape_sleeps_monotone (i j : nat) (d1 d2 : pynum) :
  (i ≤ j)%nat → sleeps t !! i = Some d1 → sleeps t !! j = Some d2 → pynum_le d1 d2.
Proof.
  intros Hij H1 H2.
  rewrite (shape_sleep_lookup _ _ H1), (shape_sleep_lookup _ _ H2).
  apply py_pow2_mono. lia.
Qed.

End BackoffShape.

(** ** Python indexing *)

Lemma py_index_in_range {A} (l : list A) (i : Z) :
  0 ≤ i < Z.of_nat (length l) →
  ∃ x, l !! Z.to_nat i = Some x ∧ py_index l i = inr x.
Proof.
  intros Hi. unfold py_index.
  destruct (decide (i < 0)); [lia|]. destruct (decide (i < 0)); [lia|].
  destruct (lookup_lt_is_Some_2 l (Z.to_nat i)) as [x Hx]; [lia|].
  exists x. by rewrite Hx.
Qed.

(** ** Completion orders and [gather] *)

Lemma completion_order_perm {A} (sched : list nat) (pending : list A) :
  completion_order sched pending ≡ₚ pending.
Proof.
  funelim (completion_order sched pending); [done|].
  simp completion_order. cbv zeta.
  set (i := (default 0%nat (head sched) `mod` S (length xs))%nat) in *.
  assert (Hi : (i < S (length xs))%nat) by (apply Nat.mod_upper_bound; lia).
  destruct (lookup_lt_is_Some_2 (x :: xs) i Hi) as [y Hy].
  rewrite Hy. simpl. rewrite H. symmetry. by apply delete_Permutation.
Qed.

Section GatherFacts.

Context {A : Type}.

Lemma fill_slots_spec (vs : list A) (done : list (nat * result A)) :
  ∀ slots : list (option A),
  (∀ i r, (i, r) ∈ done → ∃ v, r = Returned v ∧ vs !! i = Some v) →
  ∃ slots', fill_slots done slots = inr slots' ∧
            length slots' = length slots ∧
            ∀ j, (j < length slots)%nat →
                 slots' !! j = if decide (j ∈ done.*1) then Some (vs !! j) else slots !! j.
Proof.
  induction done as [|[i r] done IH]; intros slots Hdone.
  - exists slots. split; [done|]. split; [done|]. intros j _.
    destruct (decide (j ∈ ([] : list (nat * result A)).*1)) as [Hin|]; [|done].
    simpl in Hin. by apply elem_of_nil in Hin.
  - destruct (Hdone i r) as (v & -> & Hv); [left|].
    destruct (IH (<[i:=Some v]> slots)) as (slots' & Hfill & Hlen & Hlook).
    { intros i' r' Hin. apply Hdone. by right. }
    exists slots'. simpl. split; [done|].
    rewrite length_insert in Hlen. split; [done|].
    intros j Hj. rewrite Hlook by (rewrite length_insert; lia).
    simpl. destruct (decide (j ∈ done.*1)) as [Hin|Hnin].
    + rewrite decide_True; [done|]. by right.
    + destruct (decide (i = j)) as [->|Hne].
      * rewrite decide_True by left.
        rewrite list_lookup_insert_eq by done. by rewrite Hv.
      * rewrite decide_False.
        -- by rewrite list_lookup_insert_ne.
        -- intros [?|?]%elem_of_cons; done.
Qed.

(** When no task raises, [gather] returns the values of the tasks in the
    order of the tasks, whatever the order of completion. *)
Lemma gather_all_returned (sched : list nat) (tasks : list (coro A)) (vs : list A) :
  Forall2 (λ c v, c.2 = Returned v) tasks vs →
  gather sched tasks = Returned vs.
Proof.
  intros Hall. unfold gather, coro in *.
  pose proof (Forall2_length _ _ _ Hall) as Hlen.
  set (indexed := imap (λ i c, (i, c.2)) tasks).
  pose proof (completion_order_perm sched indexed) as Hperm.
  destruct (fill_slots_spec vs (completion_order sched indexed)
              (replicate (length tasks) None)) as (slots & -> & Hl & Hlook).
  { intros i r Hin. rewrite Hperm in Hin. subst indexed.
    apply elem_of_lookup_imap in Hin as (i' & c & [= <- ->] & Hc).
    destruct (Forall2_lookup_l _ _ _ _ _ Hall Hc) as (v & Hv & Hcv).
    by exists v. }
  rewrite length_replicate in Hl, Hlook.
  assert (slots = Some <$> vs) as ->.
  { apply list_eq. intros j. rewrite list_lookup_fmap.
    destruct (decide (j < length tasks)%nat) as [Hj|Hj].
    - rewrite Hlook by done. rewrite decide_True.
      + destruct (lookup_lt_is_Some_2 vs j) as [v Hv]; [lia|]. by rewrite Hv.
      + rewrite Hperm. subst indexed.
        destruct (lookup_lt_is_Some_2 tasks j Hj) as [c Hc].
        apply list_elem_of_fmap. exists (j, c.2). split; [done|].
        apply elem_of_lookup_imap. by exists j, c.
    - rewrite !lookup_ge_None_2 by lia. done. }
  f_equal. induction vs as [|v vs' IH']; simpl; [done|]. f_equal.
  clear -vs'. induction vs' as [|w ws IHw]; simpl; [done|]. by f_equal.
Qed.

End GatherFacts.

(** ** The three aiohttp samples *)

Lemma user_agent_spec (k : Z) :
  ∃ ua, Sample1.identityFor Sample1.USER_AGENTS k = Some ua ∧ Sample1.user_agent k = inr ua.
Proof.
  unfold Sample1.identityFor, Sample1.user_agent.
  apply py_index_in_range.
  apply Z.mod_pos_bound. reflexivity.
Qed.

Lemma sample1_headers_ok (k : Z) : Sample1.headers k = inr (Sample1.rotated_headers k).
Proof.
  unfold Sample1.headers, Sample1.rotated_headers.
  destruct (user_agent_spec k) as (ua & -> & ->). done.
Qed.

Lemma sample2_headers_ok (k : Z) :
  (λ _ : Z, inr [] : exn + list (string * string)) k = inr ((λ _, []) k).
Proof. done. Qed.

(** ** The shared list of sample 1 *)

Section Sample1Facts.

Context `{HtmlParser}.
Variable session : Aiohttp.session.

Lemma process_url_entry (url : string) (results : list record) :
  Sample1.process_url session url results =
  Returned (results ++ option_list (Sample1.entry_for session url)).
Proof.
  unfold Sample1.process_url, Sample1.entry_for.
  destruct (fetch_page_with_returns _ _ sample1_headers_ok session url 0
              zero_below_float_overflow) as [v Hv].
  unfold Sample1.fetch_page. rewrite Hv.
  destruct v as [html|]; [|by rewrite app_nil_r].
  destruct (String.eqb html EmptyString); [by rewrite app_nil_r|].
  destruct (Sample1.extract_data html url); [done|by rewrite app_nil_r].
Qed.

Lemma run_tasks_entries (order : list string) :
  ∀ results,
  Sample1.run_tasks session order results =
  Returned (results ++ omap (Sample1.entry_for session) order).
Proof.
  induction order as [|url order IH]; intros results; simpl.
  - by rewrite app_nil_r.
  - rewrite process_url_entry, IH, <- app_assoc. f_equal. f_equal.
    destruct (Sample1.entry_for session url); done.
Qed.

Lemma sample1_main_entries (sched : list nat) (urls : list string) :
  ∃ rs, Sample1.main sched session urls = Returned rs ∧
        rs ≡ₚ omap (Sample1.entry_for session) urls.
Proof.
  unfold Sample1.main. rewrite run_tasks_entries. eexists. split; [done|].
  simpl. by rewrite completion_order_perm.
Qed.

End Sample1Facts.

Lemma length_omap_le {A B} (f : A → option B) (l : list A) :
  (length (omap f l) ≤ length l)%nat.
Proof.
  induction l as [|x l IH]; [done|].
  change (omap f (x :: l)) with (match f x with Some y => y :: omap f l | None => omap f l end).
  destruct (f x); simpl; lia.
Qed.

(** ** The mains that return what [gather] returns *)

Lemma sample2_main_values (sched : list nat) (session : Aiohttp.session) (urls : list string) :
  ∃ rs, Sample2.main sched session urls = Returned rs ∧
        Forall2 (λ url v, (Sample2.fetch_page session url 0).2 = Returned v) urls rs.
Proof.
  assert (∃ rs, Forall2 (λ url v, (Sample2.fetch_page session url 0).2 = Returned v) urls rs)
    as [rs Hrs].
  { induction urls as [|url urls [rs IH]]; [by exists []|].
    destruct (fetch_page_with_returns _ _ sample2_headers_ok session url 0
                zero_below_float_overflow) as [v Hv].
    exists (v :: rs). by constructor. }
  exists rs. split; [|done].
  unfold Sample2.main. apply gather_all_returned.
  by apply Forall2_fmap_l.
Qed.

Lemma example_main_values `{HtmlParser} (sched : list nat) (pw : ExamplePy.playwright)
    (urls : list string) :
  ∃ rs, ExamplePy.main sched pw urls = Returned rs ∧
        Forall2 (λ url r, (ExamplePy.fetch_with_browser pw url 0 3).2 = Returned r) urls rs.
Proof.
  assert (∃ rs, Forall2 (λ url r, (ExamplePy.fetch_with_browser pw url 0 3).2 = Returned r) urls rs)
    as [rs Hrs].
  { induction urls as [|url urls [rs IH]]; [by exists []|].
    destruct (fetch_with_browser_returns pw url 0 3) as [r Hr].
    exists (r :: rs). by constructor. }
  exists rs. split; [|done].
  unfold ExamplePy.main. apply gather_all_returned.
  by apply Forall2_fmap_l.
Qed.

(** ** The read endpoint *)

Section ServerFacts.

Context `{HttpLib}.
Variables (ensure_ascii : bool) (indent : option Z).

Lemma do_GET_store (path : string) (st : Server.store) :
  (Server.do_GET ensure_ascii indent path st).2 = st.
Proof. unfold Server.do_GET. by destruct (String.eqb path "/"). Qed.

Lemma do_GET_root (st : Server.store) :
  (Server.do_GET ensure_ascii indent "/" st).1 =
  Server.json_response ensure_ascii indent (Server.heap st (Server.scraped_data st)).
Proof. done. Qed.

Lemma serve_forever_store (paths : list string) (st : Server.store) :
  (Server.serve_forever ensure_ascii indent paths st).2 = st.
Proof.
  induction paths as [|path paths IH]; simpl; [done|].
  pose proof (do_GET_store path st) as Hst.
  destruct (Server.do_GET ensure_ascii indent path st) as [resp st1].
  simpl in Hst. subst st1.
  destruct (Server.serve_forever ensure_ascii indent paths st) as [resps st2].
  done.
Qed.

Lemma serve_forever_responses (paths : list string) (st : Server.store) :
  (Server.serve_forever ensure_ascii indent paths st).1 =
  (λ path, (Server.do_GET ensure_ascii indent path st).1) <$> paths.
Proof.
  induction paths as [|path paths IH]; simpl; [done|].
  pose proof (do_GET_store path st) as Hst.
  destruct (Server.do_GET ensure_ascii indent path st) as [resp st1].
  simpl in Hst. subst st1.
  destruct (Server.serve_forever ensure_ascii indent paths st) as [resps st2].
  simpl in *. by rewrite IH.
Qed.

End ServerFacts.

(** ** The scripts on concrete networks *)

Example completion_order_example :
  completion_order [1; 0; 5; 2]%nat ["c"; "b"; "a"; "d"] = ["b"; "c"; "d"; "a"].
Proof. reflexivity. Qed.

Example fetch_page_exhausted_trace :
  Sample2.fetch_page Scenario.unreachable "u" 0 =
  (let e := Exn ClientErrorClass "Cannot connect to host" in
   [EvGet "u" [] 10; EvError (ClientErrorFor "u" e); EvSleep (PyInt 1); EvInfo (Retrying "u" 1);
    EvGet "u" [] 10; EvError (ClientErrorFor "u" e); EvSleep (PyInt 2); EvInfo (Retrying "u" 2);
    EvGet "u" [] 10; EvError (ClientErrorFor "u" e); EvSleep (PyInt 4); EvInfo (Retrying "u" 3);
    EvGet "u" [] 10; EvError (ClientErrorFor "u" e); EvError (GivingUp "u" 3)],
   Returned None).
Proof. reflexivity. Qed.

Example fetch_page_negative_counter :
  sleeps (Sample2.fetch_page Scenario.unreachable "u" (-2)).1 =
  [PyFloat (1 # 4); PyFloat (1 # 2); PyInt 1; PyInt 2; PyInt 4].
Proof. reflexivity. Qed.

Example sample2_main_three_targets :
  Sample2.main [2; 0]%nat Scenario.flaky ["a"; "b"; "c"] = Returned [Some "A"; Some "B"; None].
Proof. reflexivity. Qed.

(** The aggregate of sample 1 is in the order of completion. *)
Example sample1_main_three_targets :
  Sample1.main (H := Scenario.text_parser) [1]%nat Scenario.flaky ["a"; "b"; "c"] =
  Returned [[("name", PyStr "B"); ("address", PyStr "B"); ("url", PyStr "b")];
            [("name", PyStr "A"); ("address", PyStr "A"); ("url", PyStr "a")]].
Proof. reflexivity. Qed.

Example example_main_two_targets :
  ExamplePy.main (H := Scenario.text_parser) [1]%nat Scenario.browser_only_a ["b"; "a"] =
  Returned [[("url", PyStr "b"); ("error", PyStr "net::ERR_NAME_NOT_RESOLVED")];
            [("url", PyStr "a"); ("title", PyStr "A")]].
Proof. reflexivity. Qed.

Example sample_server_two_requests :
  (SampleServer.run_server (H := Scenario.counting_http) 0%nat ["/"; "/favicon.ico"]
     Scenario.two_pages).1 =
  [[SendResponse 200; SendHeader "Content-type" "application/json"; EndHeaders;
    WfileWrite "scraped_data:**"];
   [SendResponse 404]].
Proof. reflexivity. Qed.

(** * The claims *)

(** C1, as stated, fails on sample 1: with the single target "u", which no
    request reaches, [main] returns an aggregate that has no entry, not one. *)
Lemma sample1_main_drops_failed_target :
  ¬ ∃ rs, Sample1.main (H := Scenario.text_parser) [] Scenario.unreachable ["u"] = Returned rs ∧
          length rs = length ["u"].
Proof.
  intros (rs & Hmain & Hlen).
  vm_compute in Hmain. injection Hmain as <-. discriminate Hlen.
Qed.

(** C1, amended: [main] always returns an aggregate.  In sample 1 it holds
    one entry for each target whose fetch gave a non-empty page and whose
    extraction worked, so at most one per target; in the variants that
    return what [gather] returns (samples 2 and 3, example.py) it holds
    exactly one entry per target, failures included. *)
Theorem run_aggregate_size `{HtmlParser} (sched : list nat) (urls : list string) :
  (∀ session, ∃ rs,
      Sample1.main sched session urls = Returned rs ∧
      length rs = length (omap (Sample1.entry_for session) urls) ∧
      (length rs ≤ length urls)%nat) ∧
  (∀ session, ∃ rs,
      Sample2.main sched session urls = Returned rs ∧ length rs = length urls) ∧
  (∀ pw, ∃ rs,
      ExamplePy.main sched pw urls = Returned rs ∧ length rs = length urls).
Proof.
  split; [|split].
  - intros session.
    destruct (sample1_main_entries session sched urls) as (rs & Hmain & Hperm).
    exists rs. split; [done|]. rewrite Hperm. split; [done|]. apply length_omap_le.
  - intros session.
    destruct (sample2_main_values sched session urls) as (rs & Hmain & Hall).
    exists rs. split; [done|]. symmetry. by eapply Forall2_length.
  - intros pw.
    destruct (example_main_values sched pw urls) as (rs & Hmain & Hall).
    exists rs. split; [done|]. symmetry. by eapply Forall2_length.
Qed.






(** C4: in every run of [fetch_page] or [fetch_with_browser] started with
    the counter [retry_count], attempt number [i] of the run, made with the
    counter [retry_count + i], is followed, when there is a retry, by exactly
    one sleep of [2 ** (retry_count + i)] before the next attempt; for a
    counter [k >= 0] that is the integer [1 * 2^k]; and the delays of a run
    never decrease. *)
Theorem backoff_delay_doubles `{HtmlParser} (session : Aiohttp.session)
    (pw : ExamplePy.playwright) (url : string) (retry_count max_retries : Z) (t : list event) :
  t = (Sample1.fetch_page session url retry_count).1 ∨
  t = (Sample2.fetch_page session url retry_count).1 ∨
  t = (ExamplePy.fetch_with_browser pw url retry_count max_retries).1 →
  (∀ i : nat, (S i < attempts t)%nat →
      delays_after_attempt t !! i = Some [py_pow2 (retry_count + Z.of_nat i)]) ∧
  (∀ k, 0 ≤ k → py_pow2 k = PyInt (1 * 2 ^ k)) ∧
  (∀ (i j : nat) d1 d2, (i ≤ j)%nat →
      sleeps t !! i = Some d1 → sleeps t !! j = Some d2 → pynum_le d1 d2).
Proof.
  intros Ht.
  assert (shape : split_attempts t =
    ([], ((λ k, [py_pow2 k]) <$> seqZ retry_count (Z.of_nat (attempts t) - 1)) ++ [[]])).
  { destruct Ht as [->|[->| ->]].
    - apply (fetch_page_with_trace _ _ sample1_headers_ok session url retry_count).
    - apply (fetch_page_with_trace _ _ sample2_headers_ok session url retry_count).
    - apply fetch_with_browser_trace. }
  split; [|split].
  - intros i Hi. by apply shape_delay_between.
  - apply py_pow2_nonneg.
  - intros i j d1 d2. by apply shape_sleeps_monotone with (rc := retry_count).
Qed.

Lemma backoff_delay_doubles_witness :
  let t := (Sample1.fetch_page Scenario.unreachable "u" 0).1 in
  delays_after_attempt t !! 2%nat = Some [PyInt 4] ∧
  py_pow2 2 = PyInt (1 * 2 ^ 2) ∧
  pynum_le (PyInt 1) (PyInt 4).
Proof.
  cbv zeta.
  destruct (backoff_delay_doubles (H := Scenario.text_parser) Scenario.unreachable
              Scenario.malformed "u" 0 3 _ (or_introl eq_refl)) as (Hd & Hp & Hm).
  split; [|split].
  - apply (Hd 2%nat). vm_compute. lia.
  - apply Hp. lia.
  - apply (Hm 0%nat 2%nat); [lia | reflexivity | reflexivity].
Defined.

(** C5: the pool of sample 1 is fixed and not empty; for every counter [k]
    the identity used is [pool[k mod poolSize]], the request [fetch_page]
    sends with the counter [k] carries it, and request number [i] of a run
    carries the identity of [retry_count + i]; the identity depends on [k]
    only and is the same [poolSize] counters later, so that every member of
    the pool comes up again and again. *)
Theorem identity_rotation :
  Sample1.USER_AGENTS ≠ [] ∧
  (∀ k, ∃ ua,
      Sample1.identityFor Sample1.USER_AGENTS k = Some ua ∧
      Sample1.user_agent k = inr ua ∧
      ∀ session url, ∃ rest,
        (Sample1.fetch_page session url k).1 = EvGet url [("User-Agent", ua)] TIMEOUT :: rest) ∧
  (∀ session url retry_count (i : nat) headers,
      request_headers (Sample1.fetch_page session url retry_count).1 !! i = Some headers →
      Sample1.headers (retry_count + Z.of_nat i) = inr headers) ∧
  (∀ k, Sample1.user_agent (k + Z.of_nat (length Sample1.USER_AGENTS)) = Sample1.user_agent k) ∧
  (∀ (i : nat) ua (n : Z),
      Sample1.USER_AGENTS !! i = Some ua →
      Sample1.user_agent (Z.of_nat i + n * Z.of_nat (length Sample1.USER_AGENTS)) = inr ua).
Proof.
  split; [done|]. split; [|split; [|split]].
  - intros k. destruct (user_agent_spec k) as (ua & Hid & Hua).
    exists ua. split; [done|]. split; [done|]. intros session url.
    unfold Sample1.fetch_page.
    rewrite (fetch_page_with_step _ _ sample1_headers_ok).
    unfold Sample1.rotated_headers. rewrite Hid. simpl.
    destruct (try_get session url k) as [page|e]; [by eexists|].
    destruct (is_ClientError e); [|by eexists].
    destruct (decide (k < MAX_RETRIES)); [|by eexists].
    destruct (py_pow2_error k); by eexists.
  - intros session url rc i headers Hi.
    destruct (fetch_page_with_trace _ _ sample1_headers_ok session url rc) as [_ Hh].
    unfold Sample1.fetch_page in Hi. rewrite Hh, list_lookup_fmap in Hi.
    destruct (seqZ rc _ !! i) as [k|] eqn:Hk; [|done].
    apply lookup_seqZ in Hk as [-> _]. injection Hi as <-.
    apply sample1_headers_ok.
  - intros k. unfold Sample1.user_agent.
    rewrite <- (Z.mul_1_l (Z.of_nat (length Sample1.USER_AGENTS))) at 1.
    by rewrite Z.mod_add.
  - intros i ua n Hi. unfold Sample1.user_agent.
    pose proof (lookup_lt_Some _ _ _ Hi) as Hlt.
    rewrite Z.mod_add by done. rewrite Z.mod_small by lia.
    destruct (py_index_in_range Sample1.USER_AGENTS (Z.of_nat i)) as (x & Hx & ->); [lia|].
    rewrite Nat2Z.id in Hx. congruence.
Qed.

Lemma identity_rotation_witness :
  request_headers (Sample1.fetch_page Scenario.unreachable "u" 8).1 !! 0%nat
    = Some [("User-Agent", "Mozilla/5.0 (iPad; CPU OS 14_6 like Mac OS X) AppleWebKit/605.1.15 (KHTML, like Gecko) Version/14.0.3 Mobile/15E148 Safari/604.1")] ∧
  Sample1.headers (8 + Z.of_nat 0)
    = inr [("User-Agent", "Mozilla/5.0 (iPad; CPU OS 14_6 like Mac OS X) AppleWebKit/605.1.15 (KHTML, like Gecko) Version/14.0.3 Mobile/15E148 Safari/604.1")] ∧
  Sample1.USER_AGENTS !! 3%nat = Some "Mozilla/5.0 (Windows NT 10.0; Win64; x64; rv:89.0) Gecko/20100101 Firefox/89.0" ∧
  Sample1.user_agent (Z.of_nat 3 + 2 * Z.of_nat (length Sample1.USER_AGENTS))
    = inr "Mozilla/5.0 (Windows NT 10.0; Win64; x64; rv:89.0) Gecko/20100101 Firefox/89.0".
Proof.
  destruct identity_rotation as (_ & _ & Hreq & _ & Hcycle).
  assert (H0 : request_headers (Sample1.fetch_page Scenario.unreachable "u" 8).1 !! 0%nat
    = Some [("User-Agent", "Mozilla/5.0 (iPad; CPU OS 14_6 like Mac OS X) AppleWebKit/605.1.15 (KHTML, like Gecko) Version/14.0.3 Mobile/15E148 Safari/604.1")])
    by reflexivity.
  assert (H3 : Sample1.USER_AGENTS !! 3%nat = Some "Mozilla/5.0 (Windows NT 10.0; Win64; x64; rv:89.0) Gecko/20100101 Firefox/89.0")
    by reflexivity.
  split; [exact H0|]. split; [exact (Hreq _ _ _ _ _ H0)|].
  split; [exact H3|]. exact (Hcycle _ _ 2 H3).
Defined.

(** C6, as stated, fails on sample 1: of the targets "a" and "b", of which
    only "a" is served, the aggregate [main] returns holds a record for "a"
    and no value for "b". *)
Lemma sample1_main_omits_failure :
  ¬ ∃ rs, Sample1.main (H := Scenario.text_parser) [] Scenario.only_a ["a"; "b"] = Returned rs ∧
          ∀ url, url ∈ ["a"; "b"] → ∃ r, r ∈ rs ∧ ("url", PyStr url) ∈ r.
Proof.
  intros (rs & Hmain & Hall).
  vm_compute in Hmain. injection Hmain as <-.
  destruct (Hall "b") as (r & Hr & Hb); [by right; left|].
  apply list_elem_of_singleton in Hr as ->.
  repeat (apply elem_of_cons in Hb as [Hb|Hb]; [discriminate Hb|]).
  by apply elem_of_nil in Hb.
Qed.

(** C6, amended: [main] returns normally whatever the targets do, and no
    failure of a target is raised.  In the variants that return what
    [gather] returns, the terminal state of every target, a failure
    included, is a value of the aggregate ([None] for [fetch_page], the
    error record for [fetch_with_browser]); in sample 1 the aggregate holds
    the records of the targets that were fetched and extracted and nothing
    for the others. *)
Theorem run_returns_normally `{HtmlParser} (sched : list nat) (urls : list string) :
  (∀ session, ∃ rs,
      Sample1.main sched session urls = Returned rs ∧
      ∀ r, r ∈ rs ↔ ∃ url, url ∈ urls ∧ Sample1.entry_for session url = Some r) ∧
  (∀ session, ∃ rs,
      Sample2.main sched session urls = Returned rs ∧
      ∀ url, url ∈ urls →
        ∃ v, (Sample2.fetch_page session url 0).2 = Returned v ∧ v ∈ rs) ∧
  (∀ pw, ∃ rs,
      ExamplePy.main sched pw urls = Returned rs ∧
      ∀ url, url ∈ urls →
        ∃ r, (ExamplePy.fetch_with_browser pw url 0 3).2 = Returned r ∧ r ∈ rs).
Proof.
  split; [|split].
  - intros session.
    destruct (sample1_main_entries session sched urls) as (rs & Hmain & Hperm).
    exists rs. split; [done|]. intros r.
    rewrite Hperm. apply list_elem_of_omap.
  - intros session.
    destruct (sample2_main_values sched session urls) as (rs & Hmain & Hall).
    exists rs. split; [done|]. intros url [i Hi]%list_elem_of_lookup.
    destruct (Forall2_lookup_l _ _ _ _ _ Hall Hi) as (v & Hv & Hret).
    exists v. split; [done|]. by eapply list_elem_of_lookup_2.
  - intros pw.
    destruct (example_main_values sched pw urls) as (rs & Hmain & Hall).
    exists rs. split; [done|]. intros url [i Hi]%list_elem_of_lookup.
    destruct (Forall2_lookup_l _ _ _ _ _ Hall Hi) as (r & Hr & Hret).
    exists r. split; [done|]. by eapply list_elem_of_lookup_2.
Qed.

Lemma run_returns_normally_witness :
  "c" ∈ ["a"; "b"; "c"] ∧
  ∃ rs, Sample2.main [2; 0]%nat Scenario.flaky ["a"; "b"; "c"] = Returned rs ∧ None ∈ rs.
Proof.
  assert (Hc : "c" ∈ ["a"; "b"; "c"]) by (right; right; left).
  split; [exact Hc|].
  destruct (proj1 (proj2 (run_returns_normally (H := Scenario.text_parser)
              [2; 0]%nat ["a"; "b"; "c"])) Scenario.flaky) as (rs & Hmain & Hin).
  exists rs. split; [exact Hmain|].
  destruct (Hin "c" Hc) as (v & Hv & Hvin).
  vm_compute in Hv. injection Hv as <-. exact Hvin.
Defined.

(** C7: a GET of the path "/" is answered with status 200, the JSON content
    type and the serialisation of the object whose single key
    "scraped_data" holds the whole list the name [scraped_data] refers to;
    after [run_server(data)] that list is [data], whatever was requested
    before. *)
Theorem read_endpoint_payload `{HttpLib} (data : Server.ref) (earlier : list string)
    (st : Server.store) :
  SampleServer.do_GET "/" st =
    (Server.json_response true None (Server.heap st (Server.scraped_data st)), st) ∧
  ExamplePy.do_GET "/" st =
    (Server.json_response false (Some 2) (Server.heap st (Server.scraped_data st)), st) ∧
  last (SampleServer.run_server data (earlier ++ ["/"]) st).1 =
    Some (Server.json_response true None (Server.heap st data)) ∧
  last (ExamplePy.run_server data (earlier ++ ["/"]) st).1 =
    Some (Server.json_response false (Some 2) (Server.heap st data)).
Proof.
  split; [done|]. split; [done|].
  unfold SampleServer.run_server, ExamplePy.run_server, Server.run_server.
  rewrite !serve_forever_responses, !fmap_app, !last_app. done.
Qed.

(** C8: serving requests changes neither the list objects nor the name
    [scraped_data]: after [run_server(data)] and any sequence of requests
    the store is the one [run_server] started from, with [scraped_data]
    bound to [data], and the list [data] refers to is what it was. *)
Theorem sink_never_mutates `{HttpLib} (data : Server.ref) (paths : list string)
    (st : Server.store) :
  (∀ path, (SampleServer.do_GET path st).2 = st ∧ (ExamplePy.do_GET path st).2 = st) ∧
  (SampleServer.run_server data paths st).2 =
    {| Server.heap := Server.heap st; Server.scraped_data := data |} ∧
  (ExamplePy.run_server data paths st).2 =
    {| Server.heap := Server.heap st; Server.scraped_data := data |} ∧
  Server.heap (SampleServer.run_server data paths st).2 data = Server.heap st data ∧
  Server.heap (ExamplePy.run_server data paths st).2 data = Server.heap st data.
Proof.
  assert (Hrun : ∀ ensure_ascii indent,
    (Server.run_server ensure_ascii indent data paths st).2 =
    {| Server.heap := Server.heap st; Server.scraped_data := data |}).
  { intros. unfold Server.run_server. apply serve_forever_store. }
  split; [intros path; split; apply do_GET_store|].
  unfold SampleServer.run_server, ExamplePy.run_server.
  rewrite !Hrun. done.
Qed.

(** C9, as stated, fails: called with a counter so far below zero that
    [2 ** retry_count] cannot be computed, on a network that refuses the
    connection, [fetch_page] logs the client error and then lets the
    [OverflowError] of the delay, raised inside the [except] clause, out to
    its caller. *)
Lemma fetch_page_overflow_escapes :
  Sample2.fetch_page Scenario.unreachable "u" (- 10 ^ 400) =
    ([EvGet "u" [] TIMEOUT;
      EvError (ClientErrorFor "u" (Exn ClientErrorClass "Cannot connect to host"))],
     Raised (Exn ExceptionClass "int too large to convert to float")) ∧
  (¬ ∃ t v, Sample2.fetch_page Scenario.unreachable "u" (- 10 ^ 400) = (t, Returned v)) ∧
  (¬ ∃ t v, Sample1.fetch_page Scenario.unreachable "u" (- 10 ^ 400) = (t, Returned v)).
Proof.
  assert (H2 : Sample2.fetch_page Scenario.unreachable "u" (- 10 ^ 400) =
    ([EvGet "u" [] TIMEOUT;
      EvError (ClientErrorFor "u" (Exn ClientErrorClass "Cannot connect to host"))],
     Raised (Exn ExceptionClass "int too large to convert to float"))).
  { unfold Sample2.fetch_page.
    rewrite (fetch_page_with_step _ _ sample2_headers_ok). vm_compute. reflexivity. }
  assert (H1 : (Sample1.fetch_page Scenario.unreachable "u" (- 10 ^ 400)).2 =
    Raised (Exn ExceptionClass "int too large to convert to float")).
  { unfold Sample1.fetch_page.
    rewrite (fetch_page_with_step _ _ sample1_headers_ok). vm_compute. reflexivity. }
  split; [exact H2|]. split.
  - intros (t & v & Hret). rewrite H2 in Hret. discriminate Hret.
  - intros (t & v & Hret). rewrite Hret in H1. discriminate H1.
Qed.

(** C9, amended: for every session and URL and every retry counter that is
    not negative, as the counter of the scripts and of the recursion is,
    [fetch_page] returns: no exception deriving from [Exception] leaves it,
    and what it returns is [None] or the body of a response to one of its
    requests. *)
Theorem fetch_page_total (session : Aiohttp.session) (url : string) (retry_count : Z) :
  0 ≤ retry_count →
  (∃ t v, Sample1.fetch_page session url retry_count = (t, Returned v) ∧
          (v = None ∨ ∃ page k, v = Some page ∧ try_get session url k = Returned page)) ∧
  (∃ t v, Sample2.fetch_page session url retry_count = (t, Returned v) ∧
          (v = None ∨ ∃ page k, v = Some page ∧ try_get session url k = Returned page)).
Proof.
  intros Hrc.
  assert (Hrange : - float_overflow_bound < retry_count).
  { pose proof zero_below_float_overflow. lia. }
  split.
  - destruct (fetch_page_with_returns _ _ sample1_headers_ok session url retry_count Hrange)
      as [v Hv].
    exists (Sample1.fetch_page session url retry_count).1, v.
    split; [by apply injective_projections|].
    destruct v as [page|]; [right|by left].
    destruct (fetch_page_with_body _ _ sample1_headers_ok session url retry_count page Hv)
      as (k & _ & Hk).
    by exists page, k.
  - destruct (fetch_page_with_returns _ _ sample2_headers_ok session url retry_count Hrange)
      as [v Hv].
    exists (Sample2.fetch_page session url retry_count).1, v.
    split; [by apply injective_projections|].
    destruct v as [page|]; [right|by left].
    destruct (fetch_page_with_body _ _ sample2_headers_ok session url retry_count page Hv)
      as (k & _ & Hk).
    by exists page, k.
Qed.

Lemma fetch_page_total_witness :
  0 ≤ 1 ∧
  ∃ t v, Sample2.fetch_page Scenario.flaky "b" 1 = (t, Returned v) ∧
         (v = None ∨ ∃ page k, v = Some page ∧ try_get Scenario.flaky "b" k = Returned page).
Proof.
  assert (Hrc : 0 ≤ 1) by lia.
  split; [exact Hrc|].
  exact (proj2 (fetch_page_total Scenario.flaky "b" 1 Hrc)).
Defined.

(** C10: the mains that return the result of [gather] return, whatever the
    order in which the tasks finish, a list as long as the list of URLs
    whose element at index [i] is what the fetch of the URL at index [i]
    returned. *)
Theorem gather_mains_keep_input_order `{HtmlParser} (sched : list nat) (urls : list string) :
  (∀ session, ∃ rs,
      Sample2.main sched session urls = Returned rs ∧
      length rs = length urls ∧
      ∀ (i : nat) url, urls !! i = Some url →
        ∃ v, rs !! i = Some v ∧ (Sample2.fetch_page session url 0).2 = Returned v) ∧
  (∀ pw, ∃ rs,
      ExamplePy.main sched pw urls = Returned rs ∧
      length rs = length urls ∧
      ∀ (i : nat) url, urls !! i = Some url →
        ∃ r, rs !! i = Some r ∧ (ExamplePy.fetch_with_browser pw url 0 3).2 = Returned r).
Proof.
  split.
  - intros session.
    destruct (sample2_main_values sched session urls) as (rs & Hmain & Hall).
    exists rs. split; [done|]. split; [symmetry; by eapply Forall2_length|].
    intros i url Hi. exact (Forall2_lookup_l _ _ _ _ _ Hall Hi).
  - intros pw.
    destruct (example_main_values sched pw urls) as (rs & Hmain & Hall).
    exists rs. split; [done|]. split; [symmetry; by eapply Forall2_length|].
    intros i url Hi. exact (Forall2_lookup_l _ _ _ _ _ Hall Hi).
Qed.

Lemma gather_mains_keep_input_order_witness :
  ["a"; "b"; "c"] !! 1%nat = Some "b" ∧
  ∃ rs, Sample2.main [2; 0]%nat Scenario.flaky ["a"; "b"; "c"] = Returned rs ∧
        rs !! 1%nat = Some (Some "B").
Proof.
  assert (Hb : ["a"; "b"; "c"] !! 1%nat = Some "b") by reflexivity.
  split; [exact Hb|].
  destruct (proj1 (gather_mains_keep_input_order (H := Scenario.text_parser)
              [2; 0]%nat ["a"; "b"; "c"]) Scenario.flaky) as (rs & Hmain & _ & Hidx).
  exists rs. split; [exact Hmain|].
  destruct (Hidx 1%nat "b" Hb) as (v & Hv & Hret).
  vm_compute in Hret. injection Hret as <-. exact Hv.
Defined.

(** * Further properties of the code *)

(** ** More on the retry loop of [fetch_page] *)

Section FetchPageMore.

Variable headers_for : Z → exn + list (string * string).
Variable hdr : Z → list (string * string).
Hypothesis headers_ok : ∀ k, headers_for k = inr (hdr k).
Variable session : Aiohttp.session.

(** A page obtained after [j] failed attempts. *)
Lemma fetch_page_with_recovers (url : string) (j : nat) :
  ∀ (rc : Z) (page : string),
  - float_overflow_bound < rc →
  (∀ i : nat, (i < j)%nat →
     ∃ e, try_get session url (rc + Z.of_nat i) = Raised e ∧ is_ClientError e = true) →
  rc + Z.of_nat j ≤ MAX_RETRIES →
  try_get session url (rc + Z.of_nat j) = Returned page →
  (fetch_page_with headers_for session url rc).2 = Returned (Some page) ∧
  attempts (fetch_page_with headers_for session url rc).1 = S j.
Proof.
  induction j as [|j IH]; intros rc page Hrc Hfail Hle Hb.
  - rewrite Z.add_0_r in Hb.
    rewrite (fetch_page_with_step _ _ headers_ok), Hb. done.
  - destruct (Hfail 0%nat) as (e' & Hb' & He'); [lia|].
    rewrite Z.add_0_r in Hb'.
    rewrite (fetch_page_with_retry_step _ _ headers_ok session url rc e' Hrc Hb' He') by lia.
    destruct (IH (rc + 1) page) as (Hv & Hn); [lia | | lia | |].
    + intros i Hi. destruct (Hfail (S i)) as (e'' & Hb'' & He''); [lia|].
      exists e''. split; [|done]. rewrite <- Hb''. f_equal. lia.
    + rewrite <- Hb. f_equal. lia.
    + cbn [after fst snd app attempts is_attempt Nat.add].
      rewrite Hv, Hn. done.
Qed.

(** The page returned is the body of the last attempt. *)
Lemma fetch_page_with_last_attempt (url : string) (rc : Z) (page : string) :
  (fetch_page_with headers_for session url rc).2 = Returned (Some page) →
  try_get session url
    (rc + Z.of_nat (attempts (fetch_page_with headers_for session url rc).1) - 1)
  = Returned page.
Proof.
  induction rc as [rc IH] using (countdown_ind MAX_RETRIES).
  rewrite (fetch_page_with_step _ _ headers_ok).
  destruct (try_get session url rc) as [page'|e] eqn:Hb.
  { simpl. intros [= ->]. rewrite <- Hb. f_equal. lia. }
  destruct (is_ClientError e); [|done].
  destruct (decide (rc < MAX_RETRIES)) as [Hlt|]; [|done].
  destruct (py_pow2_error rc); [done|].
  cbn [after fst snd app attempts is_attempt Nat.add]. intros Hp.
  rewrite <- (IH Hlt Hp). f_equal. lia.
Qed.

(** How a run that returns ends: with the request that was answered, or
    with the log of the error that ended it. *)
Lemma fetch_page_with_last_event (url : string) (rc : Z) :
  match (fetch_page_with headers_for session url rc).2 with
  | Returned (Some _) =>
      ∃ k, last (fetch_page_with headers_for session url rc).1 = Some (EvGet url (hdr k) TIMEOUT)
  | Returned None =>
      last (fetch_page_with headers_for session url rc).1
        = Some (EvError (GivingUp url MAX_RETRIES)) ∨
      ∃ e, is_ClientError e = false ∧
           last (fetch_page_with headers_for session url rc).1
             = Some (EvError (UnexpectedFor url e))
  | Raised _ => True
  end.
Proof.
  induction rc as [rc IH] using (countdown_ind MAX_RETRIES).
  rewrite (fetch_page_with_step _ _ headers_ok).
  destruct (try_get session url rc) as [page'|e] eqn:Hb; [by exists rc|].
  destruct (is_ClientError e) eqn:He; [|right; by exists e].
  destruct (decide (rc < MAX_RETRIES)) as [Hlt|]; [|by left].
  destruct (py_pow2_error rc); [done|].
  specialize (IH Hlt). cbn [after fst snd].
  pose proof (fetch_page_with_attempts_bounds _ _ headers_ok session url (rc + 1)) as [Hn _].
  destruct (fetch_page_with headers_for session url (rc + 1)) as [t r]. simpl in *.
  assert (Hlast : ∀ x, last t = Some x →
            last ([EvGet url (hdr rc) TIMEOUT; EvError (ClientErrorFor url e);
                   EvSleep (py_pow2 rc); EvInfo (Retrying url (rc + 1))] ++ t) = Some x).
  { intros x Hx. rewrite last_app, Hx. done. }
  destruct r as [[page|]|e']; [| |done].
  - destruct IH as [k Hk]. exists k. by apply Hlast.
  - destruct IH as [Hg|(e' & He' & Hu)]; [left; by apply Hlast|].
    right. exists e'. split; [done|]. by apply Hlast.
Qed.

End FetchPageMore.

Lemma try_get_returned (session : Aiohttp.session) (url : string) (k : Z) (page : string) :
  try_get session url k = Returned page →
  ∃ response, session url k = inr response ∧
              Aiohttp.status response < 400 ∧
              Aiohttp.text response = inr page.
Proof.
  unfold try_get, Aiohttp.raise_for_status.
  destruct (session url k) as [e|response] eqn:Hs; [done|].
  destruct (decide (400 ≤ Aiohttp.status response)) as [|Hlt]; [done|].
  destruct (Aiohttp.text response) as [e|body] eqn:Ht; [done|].
  intros [= ->]. exists response. split; [done|]. split; [lia|done].
Qed.

Lemma user_agents_nodup : NoDup Sample1.USER_AGENTS.
Proof. apply (bool_decide_unpack _). vm_compute. reflexivity. Qed.

Lemma rotated_headers_differ (a b : Z) :
  a ≠ b → - 10 < a - b < 10 → Sample1.rotated_headers a ≠ Sample1.rotated_headers b.
Proof.
  intros Hne Hclose Heq. unfold Sample1.rotated_headers in Heq.
  destruct (user_agent_spec a) as (ua & Ha & _).
  destruct (user_agent_spec b) as (ub & Hb & _).
  rewrite Ha, Hb in Heq. simpl in Heq. injection Heq as ->.
  unfold Sample1.identityFor in Ha, Hb.
  pose proof (NoDup_lookup _ _ _ _ user_agents_nodup Ha Hb) as Hidx.
  change (Z.of_nat (length Sample1.USER_AGENTS)) with 10 in Hidx.
  pose proof (Z.mod_pos_bound a 10 eq_refl) as Hma.
  pose proof (Z.mod_pos_bound b 10 eq_refl) as Hmb.
  pose proof (Z.div_mod a 10) as Hda. pose proof (Z.div_mod b 10) as Hdb.
  assert (a `mod` 10 = b `mod` 10) by lia.
  lia.
Qed.

(** X1: when the first [j] attempts of a fetch fail with a [ClientError]
    and attempt [j], still within the limit, is answered, [fetch_page]
    returns that page after [j + 1] attempts, having slept
    [2 ** 0, ..., 2 ** (j - 1)]. *)
Theorem fetch_page_recovers_after_retries (session : Aiohttp.session) (url : string)
    (j : nat) (page : string) :
  (∀ i : nat, (i < j)%nat →
     ∃ e, try_get session url (Z.of_nat i) = Raised e ∧ is_ClientError e = true) →
  Z.of_nat j ≤ MAX_RETRIES →
  try_get session url (Z.of_nat j) = Returned page →
  ((Sample1.fetch_page session url 0).2 = Returned (Some page) ∧
   attempts (Sample1.fetch_page session url 0).1 = S j ∧
   sleeps (Sample1.fetch_page session url 0).1 = py_pow2 <$> seqZ 0 (Z.of_nat j)) ∧
  ((Sample2.fetch_page session url 0).2 = Returned (Some page) ∧
   attempts (Sample2.fetch_page session url 0).1 = S j ∧
   sleeps (Sample2.fetch_page session url 0).1 = py_pow2 <$> seqZ 0 (Z.of_nat j)).
Proof.
  intros Hfail Hle Hb. split.
  - destruct (fetch_page_with_recovers _ _ sample1_headers_ok session url j 0 page
                zero_below_float_overflow) as [Hv Hn]; [done..|].
    split; [done|]. split; [done|].
    destruct (fetch_page_with_trace _ _ sample1_headers_ok session url 0) as [Hs _].
    unfold Sample1.fetch_page. rewrite (shape_sleeps _ _ Hs), Hn. f_equal. f_equal. lia.
  - destruct (fetch_page_with_recovers _ _ sample2_headers_ok session url j 0 page
                zero_below_float_overflow) as [Hv Hn]; [done..|].
    split; [done|]. split; [done|].
    destruct (fetch_page_with_trace _ _ sample2_headers_ok session url 0) as [Hs _].
    unfold Sample2.fetch_page. rewrite (shape_sleeps _ _ Hs), Hn. f_equal. f_equal. lia.
Qed.

Lemma fetch_page_recovers_after_retries_witness :
  Z.of_nat 2 ≤ MAX_RETRIES ∧
  try_get Scenario.flaky "b" (Z.of_nat 2) = Returned "B" ∧
  (Sample2.fetch_page Scenario.flaky "b" 0).2 = Returned (Some "B") ∧
  attempts (Sample2.fetch_page Scenario.flaky "b" 0).1 = 3%nat ∧
  sleeps (Sample2.fetch_page Scenario.flaky "b" 0).1 = [PyInt 1; PyInt 2].
Proof.
  assert (Hfail : ∀ i : nat, (i < 2)%nat →
            ∃ e, try_get Scenario.flaky "b" (Z.of_nat i) = Raised e ∧ is_ClientError e = true).
  { intros i Hi. destruct i as [|[|i]]; [| |lia]; eexists; split; reflexivity. }
  assert (Hle : Z.of_nat 2 ≤ MAX_RETRIES) by (vm_compute; discriminate).
  assert (Hb : try_get Scenario.flaky "b" (Z.of_nat 2) = Returned "B") by reflexivity.
  destruct (fetch_page_recovers_after_retries Scenario.flaky "b" 2 "B" Hfail Hle Hb)
    as [_ (Hv & Hn & Hs)].
  split; [exact Hle|]. split; [exact Hb|]. split; [exact Hv|]. split; [exact Hn|]. exact Hs.
Defined.

(** X2: whatever the counter [fetch_page] is started with, it makes at
    least one attempt and at most [max(0, MAX_RETRIES - retry_count) + 1],
    and sleeps once between two attempts and never after the last; started
    with the counter at [MAX_RETRIES] or beyond it makes one attempt and
    does not sleep. *)
Theorem fetch_page_attempt_bounds (session : Aiohttp.session) (url : string) (retry_count : Z) :
  ((1 ≤ attempts (Sample1.fetch_page session url retry_count).1
      ≤ Z.to_nat (MAX_RETRIES - retry_count) + 1)%nat ∧
   length (sleeps (Sample1.fetch_page session url retry_count).1)
     = (attempts (Sample1.fetch_page session url retry_count).1 - 1)%nat) ∧
  ((1 ≤ attempts (Sample2.fetch_page session url retry_count).1
      ≤ Z.to_nat (MAX_RETRIES - retry_count) + 1)%nat ∧
   length (sleeps (Sample2.fetch_page session url retry_count).1)
     = (attempts (Sample2.fetch_page session url retry_count).1 - 1)%nat) ∧
  (MAX_RETRIES ≤ retry_count →
   (attempts (Sample1.fetch_page session url retry_count).1 = 1%nat ∧
    sleeps (Sample1.fetch_page session url retry_count).1 = []) ∧
   (attempts (Sample2.fetch_page session url retry_count).1 = 1%nat ∧
    sleeps (Sample2.fetch_page session url retry_count).1 = [])).
Proof.
  pose proof (fetch_page_with_attempts_bounds _ _ sample1_headers_ok session url retry_count) as B1.
  pose proof (fetch_page_with_attempts_bounds _ _ sample2_headers_ok session url retry_count) as B2.
  destruct (fetch_page_with_trace _ _ sample1_headers_ok session url retry_count) as [S1 _].
  destruct (fetch_page_with_trace _ _ sample2_headers_ok session url retry_count) as [S2 _].
  pose proof (shape_sleeps _ _ S1) as L1. pose proof (shape_sleeps _ _ S2) as L2.
  unfold Sample1.fetch_page, Sample2.fetch_page.
  split; [|split].
  - split; [done|]. rewrite L1, length_fmap, length_seqZ. lia.
  - split; [done|]. rewrite L2, length_fmap, length_seqZ. lia.
  - intros Hge.
    assert (N1 : attempts (fetch_page_with Sample1.headers session url retry_count).1 = 1%nat)
      by lia.
    assert (N2 : attempts (fetch_page_with (λ _, inr []) session url retry_count).1 = 1%nat)
      by lia.
    rewrite L1, L2, N1, N2. done.
Qed.

Lemma fetch_page_attempt_bounds_witness :
  MAX_RETRIES ≤ 5 ∧
  attempts (Sample1.fetch_page Scenario.unreachable "u" 5).1 = 1%nat ∧
  sleeps (Sample1.fetch_page Scenario.unreachable "u" 5).1 = [].
Proof.
  assert (Hge : MAX_RETRIES ≤ 5) by (vm_compute; discriminate).
  split; [exact Hge|].
  exact (proj1 (proj2 (proj2 (fetch_page_attempt_bounds Scenario.unreachable "u" 5)) Hge)).
Defined.

Lemma total_backoff_of_shape (t : list event) :
  split_attempts t =
    ([], ((λ k, [py_pow2 k]) <$> seqZ 0 (Z.of_nat (attempts t) - 1)) ++ [[]]) →
  (1 ≤ attempts t ≤ 4)%nat →
  Qeq (total_delay (sleeps t)) (inject_Z (2 ^ (Z.of_nat (attempts t) - 1) - 1)) ∧
  Qle (total_delay (sleeps t)) (inject_Z (2 ^ MAX_RETRIES - 1)).
Proof.
  intros Hshape Hn. rewrite (shape_sleeps _ _ Hshape).
  destruct (attempts t) as [|[|[|[|[|n]]]]]; try lia;
    (split; [reflexivity | vm_compute; discriminate]).
Qed.

(** X3: the delays a fetch started with the counter at 0 sleeps add up to
    [2 ** (attempts - 1) - 1] seconds, hence to 7 seconds at most. *)
Theorem fetch_total_backoff `{HtmlParser} (session : Aiohttp.session)
    (pw : ExamplePy.playwright) (url : string) (t : list event) :
  t = (Sample1.fetch_page session url 0).1 ∨
  t = (Sample2.fetch_page session url 0).1 ∨
  t = (ExamplePy.fetch_with_browser pw url 0 3).1 →
  Qeq (total_delay (sleeps t)) (inject_Z (2 ^ (Z.of_nat (attempts t) - 1) - 1)) ∧
  Qle (total_delay (sleeps t)) 7.
Proof.
  intros [->|[->| ->]]; apply total_backoff_of_shape.
  - apply (fetch_page_with_trace _ _ sample1_headers_ok session url 0).
  - apply (fetch_page_with_attempts_bounds _ _ sample1_headers_ok session url 0).
  - apply (fetch_page_with_trace _ _ sample2_headers_ok session url 0).
  - apply (fetch_page_with_attempts_bounds _ _ sample2_headers_ok session url 0).
  - apply fetch_with_browser_trace.
  - apply (fetch_with_browser_attempts_bounds pw url 0 3).
Qed.

Lemma fetch_total_backoff_witness :
  Qeq (total_delay (sleeps (Sample2.fetch_page Scenario.flaky "b" 0).1)) 3 ∧
  Qle (total_delay (sleeps (Sample2.fetch_page Scenario.flaky "b" 0).1)) 7.
Proof.
  destruct (fetch_total_backoff (H := Scenario.text_parser) Scenario.flaky Scenario.malformed
              "b" _ (or_intror (or_introl eq_refl))) as [He Hl].
  split; [|exact Hl].
  rewrite He. reflexivity.
Defined.

(** X4: a page [fetch_page] returns is the text of the response to its
    last request, and that response has a status below 400: the body of an
    error response is never returned. *)
Theorem fetch_page_returns_successful_body (session : Aiohttp.session) (url : string)
    (retry_count : Z) (page : string) (run : coro (option string)) :
  run = Sample1.fetch_page session url retry_count ∨
  run = Sample2.fetch_page session url retry_count →
  run.2 = Returned (Some page) →
  ∃ response,
    session url (retry_count + Z.of_nat (attempts run.1) - 1) = inr response ∧
    Aiohttp.status response < 400 ∧
    Aiohttp.text response = inr page.
Proof.
  intros [->| ->] Hret; apply try_get_returned.
  - by apply (fetch_page_with_last_attempt _ _ sample1_headers_ok).
  - by apply (fetch_page_with_last_attempt _ _ sample2_headers_ok).
Qed.

Lemma fetch_page_returns_successful_body_witness :
  (Sample2.fetch_page Scenario.flaky "b" 0).2 = Returned (Some "B") ∧
  ∃ response, Scenario.flaky "b" 2 = inr response ∧
              Aiohttp.status response < 400 ∧ Aiohttp.text response = inr "B".
Proof.
  assert (Hret : (Sample2.fetch_page Scenario.flaky "b" 0).2 = Returned (Some "B"))
    by reflexivity.
  split; [exact Hret|].
  exact (fetch_page_returns_successful_body Scenario.flaky "b" 0 "B" _
           (or_intror eq_refl) Hret).
Defined.

(** X5: no failure of [fetch_page] is silent: when it returns [None] the
    last thing it did was to log an error, either that it gives up after
    [MAX_RETRIES] retries or the unexpected exception; when it returns a
    page the last thing it did was the request. *)
Theorem fetch_page_failure_is_logged (session : Aiohttp.session) (url : string)
    (retry_count : Z) (run : coro (option string)) :
  run = Sample1.fetch_page session url retry_count ∨
  run = Sample2.fetch_page session url retry_count →
  (run.2 = Returned None →
     last run.1 = Some (EvError (GivingUp url MAX_RETRIES)) ∨
     ∃ e, is_ClientError e = false ∧ last run.1 = Some (EvError (UnexpectedFor url e))) ∧
  (∀ page, run.2 = Returned (Some page) →
     ∃ headers, last run.1 = Some (EvGet url headers TIMEOUT)).
Proof.
  intros Hrun.
  assert (Hlast : match run.2 with
    | Returned (Some _) => ∃ headers, last run.1 = Some (EvGet url headers TIMEOUT)
    | Returned None =>
        last run.1 = Some (EvError (GivingUp url MAX_RETRIES)) ∨
        ∃ e, is_ClientError e = false ∧ last run.1 = Some (EvError (UnexpectedFor url e))
    | Raised _ => True
    end).
  { destruct Hrun as [->| ->].
    - pose proof (fetch_page_with_last_event _ _ sample1_headers_ok session url retry_count) as Hl.
      unfold Sample1.fetch_page.
      destruct (fetch_page_with Sample1.headers session url retry_count).2 as [[p|]|e];
        [|done..].
      destruct Hl as [k Hk]. by eexists.
    - pose proof (fetch_page_with_last_event _ _ sample2_headers_ok session url retry_count) as Hl.
      unfold Sample2.fetch_page.
      destruct (fetch_page_with (λ _, inr []) session url retry_count).2 as [[p|]|e];
        [|done..].
      destruct Hl as [k Hk]. by eexists. }
  split.
  - intros Hnone. by rewrite Hnone in Hlast.
  - intros page Hpage. by rewrite Hpage in Hlast.
Qed.

Lemma fetch_page_failure_is_logged_witness :
  (Sample2.fetch_page Scenario.timing_out "u" 0).2 = Returned None ∧
  (last (Sample2.fetch_page Scenario.timing_out "u" 0).1 = Some (EvError (GivingUp "u" MAX_RETRIES)) ∨
   ∃ e, is_ClientError e = false ∧
        last (Sample2.fetch_page Scenario.timing_out "u" 0).1 = Some (EvError (UnexpectedFor "u" e))).
Proof.
  assert (Hnone : (Sample2.fetch_page Scenario.timing_out "u" 0).2 = Returned None)
    by reflexivity.
  split; [exact Hnone|].
  exact (proj1 (fetch_page_failure_is_logged Scenario.timing_out "u" 0 _
                  (or_intror eq_refl)) Hnone).
Defined.

(** X6: two requests of one fetch of sample 1 that are fewer than ten
    attempts apart carry different User-Agent headers; the requests of a
    fetch started with the counter at 0 carry pairwise different ones. *)
Theorem fetch_page_rotates_identity (session : Aiohttp.session) (url : string) :
  (∀ retry_count (i j : nat) hi hj,
      request_headers (Sample1.fetch_page session url retry_count).1 !! i = Some hi →
      request_headers (Sample1.fetch_page session url retry_count).1 !! j = Some hj →
      i ≠ j → (i < j + 10)%nat → (j < i + 10)%nat → hi ≠ hj) ∧
  NoDup (request_headers (Sample1.fetch_page session url 0).1).
Proof.
  assert (Hlook : ∀ rc (i : nat) h,
    request_headers (Sample1.fetch_page session url rc).1 !! i = Some h →
    h = Sample1.rotated_headers (rc + Z.of_nat i) ∧
    (i < attempts (Sample1.fetch_page session url rc).1)%nat).
  { intros rc i h Hi.
    destruct (fetch_page_with_trace _ _ sample1_headers_ok session url rc) as [_ Hh].
    unfold Sample1.fetch_page in *. rewrite Hh, list_lookup_fmap in Hi.
    destruct (seqZ rc _ !! i) as [k|] eqn:Hk; [|done].
    apply lookup_seqZ in Hk as [-> Hlt]. injection Hi as <-. split; [done|lia]. }
  assert (Hdiff : ∀ rc (i j : nat) hi hj,
    request_headers (Sample1.fetch_page session url rc).1 !! i = Some hi →
    request_headers (Sample1.fetch_page session url rc).1 !! j = Some hj →
    i ≠ j → (i < j + 10)%nat → (j < i + 10)%nat → hi ≠ hj).
  { intros rc i j hi hj Hi Hj Hne H1 H2.
    destruct (Hlook _ _ _ Hi) as [-> _]. destruct (Hlook _ _ _ Hj) as [-> _].
    apply rotated_headers_differ; lia. }
  split; [exact Hdiff|].
  apply NoDup_alt. intros i j h Hi Hj.
  destruct (decide (i = j)) as [|Hne]; [done|]. exfalso.
  pose proof (fetch_page_with_attempts_bounds _ _ sample1_headers_ok session url 0) as [_ Hn].
  destruct (Hlook _ _ _ Hi) as [_ Hli]. destruct (Hlook _ _ _ Hj) as [_ Hlj].
  unfold Sample1.fetch_page in *.
  change (Z.to_nat (MAX_RETRIES - 0)) with 3%nat in Hn.
  apply (Hdiff 0 i j h h Hi Hj Hne); [lia | lia | done].
Qed.

Lemma fetch_page_rotates_identity_witness :
  request_headers (Sample1.fetch_page Scenario.unreachable "u" 0).1 !! 0%nat
    = Some (Sample1.rotated_headers 0) ∧
  request_headers (Sample1.fetch_page Scenario.unreachable "u" 0).1 !! 3%nat
    = Some (Sample1.rotated_headers 3) ∧
  Sample1.rotated_headers 0 ≠ Sample1.rotated_headers 3.
Proof.
  assert (H0 : request_headers (Sample1.fetch_page Scenario.unreachable "u" 0).1 !! 0%nat
               = Some (Sample1.rotated_headers 0)) by reflexivity.
  assert (H3 : request_headers (Sample1.fetch_page Scenario.unreachable "u" 0).1 !! 3%nat
               = Some (Sample1.rotated_headers 3)) by reflexivity.
  split; [exact H0|]. split; [exact H3|].
  apply (proj1 (fetch_page_rotates_identity Scenario.unreachable "u") 0 0%nat 3%nat _ _ H0 H3);
    lia.
Defined.

(** ** More on the aggregate of sample 1 *)

Lemma entry_for_spec `{HtmlParser} (session : Aiohttp.session) (url : string) (r : record) :
  Sample1.entry_for session url = Some r ↔
  ∃ page soup,
    (Sample1.fetch_page session url 0).2 = Returned (Some page) ∧
    page ≠ EmptyString ∧
    BeautifulSoup page "lxml" = inr soup ∧
    r = [("name", PyStr (default "N/A" (find_text soup "h1" "DUwDvf")));
         ("address", PyStr (default "N/A" (find_text soup "div" "LrzXr")));
         ("url", PyStr url)].
Proof.
  unfold Sample1.entry_for, Sample1.extract_data. split.
  - destruct (Sample1.fetch_page session url 0).2 as [[page|]|e]; [|done..].
    destruct (String.eqb_spec page EmptyString) as [|Hne]; [done|].
    destruct (BeautifulSoup page "lxml") as [e|soup] eqn:Hs; [done|].
    intros [= <-]. by exists page, soup.
  - intros (page & soup & -> & Hne & Hs & ->).
    destruct (String.eqb_spec page EmptyString) as [|_]; [done|].
    by rewrite Hs.
Qed.

(** X7: the aggregate sample 1 returns holds exactly the records of the
    targets whose fetch returned a page that is not empty and that the
    parser accepted; a record has the keys name, address and url, in this
    order, "N/A" standing for an element the page lacks, and its url is
    the target it was extracted from. *)
Theorem sample1_aggregate_entries `{HtmlParser} (sched : list nat)
    (session : Aiohttp.session) (urls : list string) :
  ∃ rs, Sample1.main sched session urls = Returned rs ∧
    ∀ r, r ∈ rs ↔
      ∃ url page soup,
        url ∈ urls ∧
        (Sample1.fetch_page session url 0).2 = Returned (Some page) ∧
        page ≠ EmptyString ∧
        BeautifulSoup page "lxml" = inr soup ∧
        r = [("name", PyStr (default "N/A" (find_text soup "h1" "DUwDvf")));
             ("address", PyStr (default "N/A" (find_text soup "div" "LrzXr")));
             ("url", PyStr url)].
Proof.
  destruct (sample1_main_entries session sched urls) as (rs & Hmain & Hperm).
  exists rs. split; [done|]. intros r.
  rewrite Hperm, list_elem_of_omap. split.
  - intros (url & Hin & Hentry). apply entry_for_spec in Hentry as (page & soup & Hrest).
    by exists url, page, soup.
  - intros (url & page & soup & Hin & Hrest). exists url. split; [done|].
    apply entry_for_spec. by exists page, soup.
Qed.

Lemma sample1_aggregate_entries_witness :
  ∃ rs, Sample1.main (H := Scenario.text_parser) [] Scenario.only_a ["a"; "b"] = Returned rs ∧
        [("name", PyStr "<h1>A</h1>"); ("address", PyStr "<h1>A</h1>"); ("url", PyStr "a")] ∈ rs.
Proof.
  destruct (sample1_aggregate_entries (H := Scenario.text_parser) [] Scenario.only_a ["a"; "b"])
    as (rs & Hmain & Hin).
  exists rs. split; [exact Hmain|].
  apply Hin. exists "a", "<h1>A</h1>", "<h1>A</h1>".
  split; [left|]. split; [reflexivity|]. split; [discriminate|]. split; reflexivity.
Defined.

(** X8: a target that is answered with an empty page, or with a page the
    parser raises on, is left out of the aggregate of sample 1; the run
    raises nothing, and an empty page that comes at the first attempt
    leaves no log either. *)
Theorem sample1_skips_unusable_page `{HtmlParser} (sched : list nat)
    (session : Aiohttp.session) (urls : list string) (url page : string) :
  (Sample1.fetch_page session url 0).2 = Returned (Some page) →
  page = EmptyString ∨ (∃ e, BeautifulSoup page "lxml" = inl e) →
  (∃ rs, Sample1.main sched session urls = Returned rs ∧
         ∀ r, r ∈ rs → ("url", PyStr url) ∉ r) ∧
  (try_get session url 0 = Returned EmptyString →
   ∃ headers, Sample1.fetch_page session url 0 =
                ([EvGet url headers TIMEOUT], Returned (Some EmptyString))).
Proof.
  intros Hpage Hbad. split.
  - destruct (sample1_main_entries session sched urls) as (rs & Hmain & Hperm).
    exists rs. split; [done|]. intros r Hr Hurl.
    rewrite Hperm in Hr. apply list_elem_of_omap in Hr as (url' & _ & Hentry).
    apply entry_for_spec in Hentry as (page' & soup & Hpage' & Hne & Hsoup & ->).
    assert (url' = url) as ->.
    { repeat (apply elem_of_cons in Hurl as [Hurl|Hurl]; [by injection Hurl|]).
      by apply elem_of_nil in Hurl. }
    rewrite Hpage in Hpage'. injection Hpage' as <-.
    destruct Hbad as [->|[e He]]; [done|]. by rewrite He in Hsoup.
  - intros Hfirst. eexists. unfold Sample1.fetch_page.
    rewrite (fetch_page_with_step _ _ sample1_headers_ok), Hfirst. done.
Qed.

Lemma sample1_skips_unusable_page_witness :
  (Sample1.fetch_page Scenario.empty_pages "a" 0).2 = Returned (Some EmptyString) ∧
  Sample1.main (H := Scenario.text_parser) [] Scenario.empty_pages ["a"; "b"] = Returned [].
Proof.
  assert (Hpage : (Sample1.fetch_page Scenario.empty_pages "a" 0).2 = Returned (Some EmptyString))
    by reflexivity.
  split; [exact Hpage|].
  destruct (proj1 (sample1_skips_unusable_page (H := Scenario.text_parser) []
              Scenario.empty_pages ["a"; "b"] "a" EmptyString Hpage (or_introl eq_refl)))
    as (rs & Hmain & _).
  rewrite Hmain. vm_compute in Hmain. injection Hmain as <-. reflexivity.
Defined.

(** X9: the order in which the tasks finish decides the order of the
    aggregate of sample 1 and nothing else: two runs on the same network
    return permutations of one another; and it decides nothing in the
    scripts that return what [gather] returns. *)
Theorem completion_order_only_reorders `{HtmlParser} (sched1 sched2 : list nat)
    (session : Aiohttp.session) (pw : ExamplePy.playwright) (urls : list string) :
  (∃ rs1 rs2, Sample1.main sched1 session urls = Returned rs1 ∧
              Sample1.main sched2 session urls = Returned rs2 ∧
              rs1 ≡ₚ rs2) ∧
  Sample2.main sched1 session urls = Sample2.main sched2 session urls ∧
  ExamplePy.main sched1 pw urls = ExamplePy.main sched2 pw urls.
Proof.
  split; [|split].
  - destruct (sample1_main_entries session sched1 urls) as (rs1 & Hmain1 & Hperm1).
    destruct (sample1_main_entries session sched2 urls) as (rs2 & Hmain2 & Hperm2).
    exists rs1, rs2. split; [done|]. split; [done|]. by rewrite Hperm1, Hperm2.
  - destruct (sample2_main_values sched1 session urls) as (rs1 & -> & Hall1).
    destruct (sample2_main_values sched2 session urls) as (rs2 & -> & Hall2).
    f_equal. clear -Hall1 Hall2. revert rs2 Hall2.
    induction Hall1 as [|url v urls rs1 Hv _ IH]; intros rs2 Hall2.
    + by apply Forall2_nil_inv_l in Hall2.
    + apply Forall2_cons_inv_l in Hall2 as (v' & rs2' & Hv' & Hall2 & ->).
      rewrite Hv in Hv'. injection Hv' as <-. f_equal. by apply IH.
  - destruct (example_main_values sched1 pw urls) as (rs1 & -> & Hall1).
    destruct (example_main_values sched2 pw urls) as (rs2 & -> & Hall2).
    f_equal. clear -Hall1 Hall2. revert rs2 Hall2.
    induction Hall1 as [|url v urls rs1 Hv _ IH]; intros rs2 Hall2.
    + by apply Forall2_nil_inv_l in Hall2.
    + apply Forall2_cons_inv_l in Hall2 as (v' & rs2' & Hv' & Hall2 & ->).
      rewrite Hv in Hv'. injection Hv' as <-. f_equal. by apply IH.
Qed.

(** ** More on [fetch_with_browser] *)

(** X10: in a call of [fetch_with_browser] with the default limit or a
    smaller one and a counter that is not negative, as the call of the
    script and the calls of its recursion are: when no attempt succeeds, it
    makes [max_retries - retry_count + 1] attempts and returns the error
    record of the last one, the attempt made with the counter at
    [max_retries]; the errors of the earlier attempts are in the log
    only. *)
Theorem fetch_with_browser_reports_last_error `{HtmlParser} (pw : ExamplePy.playwright)
    (url : string) (retry_count max_retries : Z) :
  0 ≤ retry_count → retry_count ≤ max_retries → max_retries ≤ 3 →
  (∀ k, retry_count ≤ k ≤ max_retries → ∃ e, ExamplePy.try_load pw url k = Raised e) →
  ∃ e, ExamplePy.try_load pw url max_retries = Raised e ∧
       (ExamplePy.fetch_with_browser pw url retry_count max_retries).2 =
         Returned [("url", PyStr url); ("error", PyStr (exn_str e))] ∧
       attempts (ExamplePy.fetch_with_browser pw url retry_count max_retries).1 =
         (Z.to_nat (max_retries - retry_count) + 1)%nat.
Proof.
  induction retry_count as [rc IH] using (countdown_ind max_retries).
  intros Hnn Hle Hmax Hfail.
  rewrite fetch_with_browser_step.
  destruct (Hfail rc) as [e He]; [lia|]. rewrite He.
  destruct (decide (rc < max_retries)) as [Hlt|Hge].
  - destruct (IH Hlt) as (e' & He' & Hv & Hn);
      [lia | lia | done | intros k Hk; apply Hfail; lia |].
    exists e'. split; [done|]. cbn [after fst snd]. split; [done|].
    rewrite attempts_app, Hn. simpl. lia.
  - assert (rc = max_retries) as -> by lia.
    exists e. split; [done|]. split; [done|]. simpl. lia.
Qed.

Lemma fetch_with_browser_reports_last_error_witness :
  0 ≤ 0 ∧ 0 ≤ 3 ∧ 3 ≤ 3 ∧
  (ExamplePy.fetch_with_browser (H := Scenario.text_parser) Scenario.browser_down "u" 0 3).2 =
    Returned [("url", PyStr "u"); ("error", PyStr "last failure")] ∧
  attempts (ExamplePy.fetch_with_browser (H := Scenario.text_parser)
              Scenario.browser_down "u" 0 3).1 = 4%nat.
Proof.
  assert (Hnn : 0 ≤ 0) by lia.
  assert (Hle : 0 ≤ 3) by lia.
  assert (Hmax : 3 ≤ 3) by lia.
  assert (Hfail : ∀ k, 0 ≤ k ≤ 3 →
            ∃ e, ExamplePy.try_load (H := Scenario.text_parser) Scenario.browser_down "u" k
                 = Raised e).
  { intros k _. eexists. reflexivity. }
  destruct (fetch_with_browser_reports_last_error (H := Scenario.text_parser)
              Scenario.browser_down "u" 0 3 Hnn Hle Hmax Hfail) as (e & He & Hv & Hn).
  split; [exact Hnn|]. split; [exact Hle|]. split; [exact Hmax|].
  vm_compute in He. injection He as <-.
  split; [exact Hv | exact Hn].
Defined.

(** X11: [fetch_with_browser] makes at least one attempt and at most
    [max(0, max_retries - retry_count) + 1], and sleeps once between two
    attempts and never after the last; with [max_retries] at or below the
    counter, as with [max_retries=0], it makes one attempt and does not
    sleep. *)
Theorem fetch_with_browser_attempt_bounds `{HtmlParser} (pw : ExamplePy.playwright)
    (url : string) (retry_count max_retries : Z) :
  (1 ≤ attempts (ExamplePy.fetch_with_browser pw url retry_count max_retries).1
     ≤ Z.to_nat (max_retries - retry_count) + 1)%nat ∧
  length (sleeps (ExamplePy.fetch_with_browser pw url retry_count max_retries).1)
    = (attempts (ExamplePy.fetch_with_browser pw url retry_count max_retries).1 - 1)%nat ∧
  (max_retries ≤ retry_count →
   attempts (ExamplePy.fetch_with_browser pw url retry_count max_retries).1 = 1%nat ∧
   sleeps (ExamplePy.fetch_with_browser pw url retry_count max_retries).1 = []).
Proof.
  pose proof (fetch_with_browser_attempts_bounds pw url retry_count max_retries) as Hb.
  pose proof (shape_sleeps _ _ (fetch_with_browser_trace pw url retry_count max_retries)) as Hs.
  split; [done|]. split.
  - rewrite Hs, length_fmap, length_seqZ. lia.
  - intros Hge.
    assert (Hn : attempts (ExamplePy.fetch_with_browser pw url retry_count max_retries).1
                 = 1%nat) by lia.
    rewrite Hs, Hn. done.
Qed.

Lemma fetch_with_browser_attempt_bounds_witness :
  0 ≤ 0 ∧
  attempts (ExamplePy.fetch_with_browser (H := Scenario.text_parser)
              Scenario.browser_down "u" 0 0).1 = 1%nat ∧
  sleeps (ExamplePy.fetch_with_browser (H := Scenario.text_parser)
            Scenario.browser_down "u" 0 0).1 = [].
Proof.
  assert (Hge : 0 ≤ 0) by lia.
  split; [exact Hge|].
  exact (proj2 (proj2 (fetch_with_browser_attempt_bounds (H := Scenario.text_parser)
                         Scenario.browser_down "u" 0 0)) Hge).
Defined.

(** X12: a call of [fetch_with_browser] with the default limit or a
    smaller one and a counter that is not negative lets no exception
    deriving from [Exception] out; it returns a dict of two keys, the
    first of which is "url" with the URL it was called with.  The second
    is "title", for a page that loaded and parsed and whose browser closed,
    with the string of the title tag, [None] when the tag has no single
    string and "Titre introuvable" when the page has no title; or it is
    "error", with the text of the exception of an attempt. *)
Theorem fetch_with_browser_record_shape `{HtmlParser} (pw : ExamplePy.playwright)
    (url : string) (retry_count max_retries : Z) :
  0 ≤ retry_count → max_retries ≤ 3 →
  ∃ r, (ExamplePy.fetch_with_browser pw url retry_count max_retries).2 = Returned r ∧
    ((∃ k html soup,
        retry_count ≤ k ∧
        ExamplePy.page_content (pw url k) = inr html ∧
        BeautifulSoup html "html.parser" = inr soup ∧
        ExamplePy.browser_close (pw url k) = None ∧
        r = [("url", PyStr url);
             ("title", match title_string soup with
                       | Some (Some s) => PyStr s
                       | Some None => PyNone
                       | None => PyStr "Titre introuvable"
                       end)]) ∨
     (∃ k e,
        retry_count ≤ k ∧
        ExamplePy.try_load pw url k = Raised e ∧
        r = [("url", PyStr url); ("error", PyStr (exn_str e))])).
Proof.
  intros _ _.
  destruct (fetch_with_browser_returns pw url retry_count max_retries) as [r Hr].
  exists r. split; [done|].
  destruct (fetch_with_browser_value pw url retry_count max_retries r Hr)
    as [(k & Hk & Hload)|(k & e & Hk & Hload & ->)].
  - left. unfold ExamplePy.try_load in Hload.
    destruct (ExamplePy.page_content (pw url k)) as [e|html] eqn:Hc; [done|].
    destruct (BeautifulSoup html "html.parser") as [e|soup] eqn:Hs; [done|].
    destruct (ExamplePy.browser_close (pw url k)) as [e|] eqn:Hcl; [done|].
    injection Hload as <-. exists k, html, soup.
    split; [done|]. split; [done|]. split; [done|]. split; [done|].
    by destruct (title_string soup) as [[s|]|].
  - right. by exists k, e.
Qed.

Lemma fetch_with_browser_record_shape_witness :
  0 ≤ 0 ∧ 3 ≤ 3 ∧
  ∃ r, (ExamplePy.fetch_with_browser (H := Scenario.text_parser)
          Scenario.browser_only_a "a" 0 3).2 = Returned r ∧
       r = [("url", PyStr "a"); ("title", PyStr "A")].
Proof.
  assert (Hnn : 0 ≤ 0) by lia.
  assert (Hmax : 3 ≤ 3) by lia.
  split; [exact Hnn|]. split; [exact Hmax|].
  destruct (fetch_with_browser_record_shape (H := Scenario.text_parser)
              Scenario.browser_only_a "a" 0 3 Hnn Hmax) as (r & Hr & _).
  exists r. split; [exact Hr|].
  vm_compute in Hr. injection Hr as <-. reflexivity.
Defined.

(** ** More on the read endpoint *)

Lemma run_server_by_path `{HttpLib} (ensure_ascii : bool) (indent : option Z)
    (data : Server.ref) (paths : list string) (st : Server.store) :
  (Server.run_server ensure_ascii indent data paths st).1 =
  (λ path, if String.eqb path "/"
           then Server.json_response ensure_ascii indent (Server.heap st data)
           else SimpleHTTPRequestHandler_do_GET path) <$> paths.
Proof.
  unfold Server.run_server. rewrite serve_forever_responses.
  apply list_fmap_ext. intros _ path _. unfold Server.do_GET.
  by destruct (String.eqb path "/").
Qed.

(** X13: the server answers each request by its path alone: the path "/"
    with the JSON of the list [run_server] was given, every time the same,
    and any other path, a "/" followed by a query string included, with
    what the static file handler answers; one response per request. *)
Theorem server_answers_by_path `{HttpLib} (data : Server.ref) (paths : list string)
    (st : Server.store) :
  (SampleServer.run_server data paths st).1 =
    (λ path, if String.eqb path "/"
             then Server.json_response true None (Server.heap st data)
             else SimpleHTTPRequestHandler_do_GET path) <$> paths ∧
  (ExamplePy.run_server data paths st).1 =
    (λ path, if String.eqb path "/"
             then Server.json_response false (Some 2) (Server.heap st data)
             else SimpleHTTPRequestHandler_do_GET path) <$> paths ∧
  length (SampleServer.run_server data paths st).1 = length paths ∧
  length (ExamplePy.run_server data paths st).1 = length paths.
Proof.
  unfold SampleServer.run_server, ExamplePy.run_server.
  rewrite !run_server_by_path, !length_fmap. done.
Qed.

(** ** The [__main__] blocks *)

Lemma sample2_main_nonempty (sched : list nat) (session : Aiohttp.session)
    (urls : list string) :
  urls ≠ [] →
  ∃ v rs, Sample2.main sched session urls = Returned (v :: rs) ∧
          length (v :: rs) = length urls ∧
          Forall2 (λ url v, (Sample2.fetch_page session url 0).2 = Returned v) urls (v :: rs).
Proof.
  intros Hne. destruct (sample2_main_values sched session urls) as (rs & Hmain & Hall).
  pose proof (Forall2_length _ _ _ Hall) as Hlen.
  destruct rs as [|v rs]; [by destruct urls|].
  by exists v, rs.
Qed.

(** X14: sample 2 saves a file whenever it is given a URL, even when every
    fetch failed: the file has one entry per URL, in the order of the URLs
    and numbered from 1, which shows the page or, for a failed fetch,
    the word None.  Only for an empty list of URLs does it report that no
    data was retrieved, and then it writes no file. *)
Theorem sample2_script_saves_every_target `{Builtins} (sched : list nat) (elapsed : Q)
    (session : Aiohttp.session) (urls : list string) :
  (urls = [] →
   Scripts.sample2 sched elapsed session urls = Returned [Print "No data retrieved."]) ∧
  (urls ≠ [] →
   ∃ rs,
     Sample2.main sched session urls = Returned rs ∧
     Scripts.sample2 sched elapsed session urls =
       Returned [Print ("Retrieved data: " +:+ py_repr (PyList (of_optional <$> rs)));
                 Print ("Total execution time: " +:+ format_2f elapsed +:+ " seconds");
                 FileWrite "scraped_data.txt"
                           (String.concat EmptyString (Scripts.file_lines rs));
                 Print "Scraped data saved to scraped_data.txt"] ∧
     length (Scripts.file_lines rs) = length urls ∧
     ∀ (i : nat) url, urls !! i = Some url →
       ∃ v, (Sample2.fetch_page session url 0).2 = Returned v ∧
            Scripts.file_lines rs !! i =
              Some ("URL " +:+ pretty (i + 1)%nat +:+ ": " +:+
                    Scripts.format_data v +:+ newline)).
Proof.
  split.
  - intros ->. reflexivity.
  - intros Hne.
    destruct (sample2_main_nonempty sched session urls Hne) as (v & rs & Hmain & Hlen & Hall).
    exists (v :: rs). split; [done|]. split; [|split].
    + unfold Scripts.sample2. rewrite Hmain. done.
    + unfold Scripts.file_lines. by rewrite length_imap.
    + intros i url Hi.
      destruct (Forall2_lookup_l _ _ _ _ _ Hall Hi) as (w & Hw & Hret).
      exists w. split; [done|].
      unfold Scripts.file_lines. rewrite list_lookup_imap, Hw. done.
Qed.

Lemma sample2_script_saves_every_target_witness :
  ["a"; "c"] ≠ [] ∧
  ∃ rs, Sample2.main [1]%nat Scenario.flaky ["a"; "c"] = Returned rs ∧
        Scripts.file_lines rs = ["URL 1: A" +:+ newline; "URL 2: None" +:+ newline].
Proof.
  assert (Hne : ["a"; "c"] ≠ ([] : list string)) by discriminate.
  split; [exact Hne|].
  destruct (proj2 (sample2_script_saves_every_target (H := Scenario.mute_builtins)
              [1]%nat 0%Q Scenario.flaky ["a"; "c"]) Hne) as (rs & Hmain & _).
  exists rs. split; [exact Hmain|].
  vm_compute in Hmain. injection Hmain as <-. reflexivity.
Defined.

(** X15: Sample with Server.py starts its server whenever it is given a
    URL, even when every fetch failed, and every request for "/" is then
    answered with the JSON of the results of all the URLs, in the order of
    the URLs, [None] standing for a failed fetch.  Only for an empty list
    of URLs does it report that no data was retrieved and serve nothing. *)
Theorem sample_server_script_serves_every_target `{HttpLib} `{Builtins} (sched : list nat)
    (elapsed : Q) (requests : list string) (session : Aiohttp.session) (urls : list string) :
  (urls = [] →
   Scripts.sample_server sched elapsed requests session urls =
     Returned [Print "No data retrieved."]) ∧
  (urls ≠ [] →
   ∃ rs,
     Forall2 (λ url v, (Sample2.fetch_page session url 0).2 = Returned v) urls rs ∧
     Scripts.sample_server sched elapsed requests session urls =
       Returned [Print ("Retrieved data: " +:+ py_repr (PyList (of_optional <$> rs)));
                 Print ("Total execution time: " +:+ format_2f elapsed +:+ " seconds");
                 Print "Serving scraped data on http://localhost:8000/";
                 ServerThread
                   ((λ path, if String.eqb path "/"
                             then Server.json_response true None (of_optional <$> rs)
                             else SimpleHTTPRequestHandler_do_GET path) <$> requests);
                 Print (newline +:+ "Server stopped.")]).
Proof.
  split.
  - intros ->. reflexivity.
  - intros Hne.
    destruct (sample2_main_nonempty sched session urls Hne) as (v & rs & Hmain & Hlen & Hall).
    exists (v :: rs). split; [done|].
    unfold Scripts.sample_server, SampleServer.run_server.
    rewrite Hmain, run_server_by_path. done.
Qed.

Lemma sample_server_script_serves_every_target_witness :
  ["c"] ≠ [] ∧
  Scripts.sample_server (http := Scenario.counting_http) (builtins := Scenario.mute_builtins)
      [] 0%Q ["/"] Scenario.flaky ["c"] =
    Returned [Print "Retrieved data: "; Print "Total execution time: s seconds";
              Print "Serving scraped data on http://localhost:8000/";
              ServerThread [[SendResponse 200; SendHeader "Content-type" "application/json";
                             EndHeaders; WfileWrite "scraped_data:*"]];
              Print (newline +:+ "Server stopped.")].
Proof.
  assert (Hne : ["c"] ≠ ([] : list string)) by discriminate.
  split; [exact Hne|].
  destruct (proj2 (sample_server_script_serves_every_target (H := Scenario.counting_http)
              (H0 := Scenario.mute_builtins) [] 0%Q ["/"] Scenario.flaky ["c"]) Hne)
    as (rs & Hall & Hscript).
  rewrite Hscript.
  apply Forall2_cons_inv_l in Hall as (v & rs' & Hv & Hall & ->).
  apply Forall2_nil_inv_l in Hall as ->.
  vm_compute in Hv. injection Hv as <-. reflexivity.
Defined.

(** X17: sample 1 reports that no data was retrieved exactly when no
    target gave a page that is not empty and that the parser accepted,
    whatever the number of URLs. *)
Theorem sample1_script_reports_no_data `{HtmlParser} `{Builtins} (sched : list nat)
    (elapsed : Q) (session : Aiohttp.session) (urls : list string) :
  Scripts.sample1 sched elapsed session urls = Returned [Print "Aucune donnée récupérée."] ↔
  ∀ url page, url ∈ urls →
    (Sample1.fetch_page session url 0).2 = Returned (Some page) →
    page = EmptyString ∨ ∃ e, BeautifulSoup page "lxml" = inl e.
Proof.
  destruct (sample1_main_entries session sched urls) as (rs & Hmain & Hperm).
  unfold Scripts.sample1. rewrite Hmain. split.
  - intros Hscript url page Hin Hpage.
    destruct rs as [|r rs]; [|done].
    apply Permutation_nil_l in Hperm.
    destruct (String.eqb_spec page EmptyString) as [|Hne]; [by left|]. right.
    destruct (BeautifulSoup page "lxml") as [e|soup] eqn:Hs; [by exists e|]. exfalso.
    assert (Hentry : ∃ r, Sample1.entry_for session url = Some r).
    { eexists. apply entry_for_spec. by exists page, soup. }
    destruct Hentry as [r Hentry].
    assert (Hr : r ∈ omap (Sample1.entry_for session) urls).
    { apply list_elem_of_omap. by exists url. }
    rewrite <- Hperm in Hr. by apply elem_of_nil in Hr.
  - intros Hnone. destruct rs as [|r rs]; [done|]. exfalso.
    assert (Hr : r ∈ omap (Sample1.entry_for session) urls).
    { rewrite <- Hperm. left. }
    apply list_elem_of_omap in Hr as (url & Hin & Hentry).
    apply entry_for_spec in Hentry as (page & soup & Hpage & Hne & Hs & _).
    destruct (Hnone url page Hin Hpage) as [->|[e He]]; [done|].
    by rewrite He in Hs.
Qed.

Lemma sample1_script_reports_no_data_witness :
  Scripts.sample1 (parser := Scenario.text_parser) (builtins := Scenario.mute_builtins)
    [] 0%Q Scenario.unreachable ["a"; "b"] = Returned [Print "Aucune donnée récupérée."].
Proof.
  apply (proj2 (sample1_script_reports_no_data (H := Scenario.text_parser)
                  (H0 := Scenario.mute_builtins) [] 0%Q Scenario.unreachable ["a"; "b"])).
  intros url page Hin Hpage. exfalso.
  repeat (apply elem_of_cons in Hin as [->|Hin]; [vm_compute in Hpage; discriminate Hpage|]).
  by apply elem_of_nil in Hin.
Defined.

(** X18: [fetch_page] treats a response by its status: a status of 400 or
    more is retried like a failure of the transport, so that a URL which
    always answers with such a status costs four requests and seven
    seconds of sleep and gives [None]; any status below 400 whose body can
    be read ends the fetch at once with that body. *)
Theorem fetch_page_splits_statuses_at_400 (session : Aiohttp.session) (url : string) :
  ((∀ k, ∃ response, session url k = inr response ∧ 400 ≤ Aiohttp.status response) →
   ((Sample1.fetch_page session url 0).2 = Returned None ∧
    attempts (Sample1.fetch_page session url 0).1 = 4%nat ∧
    sleeps (Sample1.fetch_page session url 0).1 = [PyInt 1; PyInt 2; PyInt 4]) ∧
   ((Sample2.fetch_page session url 0).2 = Returned None ∧
    attempts (Sample2.fetch_page session url 0).1 = 4%nat ∧
    sleeps (Sample2.fetch_page session url 0).1 = [PyInt 1; PyInt 2; PyInt 4])) ∧
  (∀ response page,
     session url 0 = inr response →
     Aiohttp.status response < 400 → Aiohttp.text response = inr page →
     (∃ headers, Sample1.fetch_page session url 0 =
                   ([EvGet url headers TIMEOUT], Returned (Some page))) ∧
     Sample2.fetch_page session url 0 = ([EvGet url [] TIMEOUT], Returned (Some page))).
Proof.
  split.
  - intros Hstatus.
    assert (Hfail : ∀ k, 0 ≤ k → ∃ e, try_get session url k = Raised e ∧ is_ClientError e = true).
    { intros k _. destruct (Hstatus k) as (response & Hs & Hcode).
      exists (Exn ClientErrorClass (Aiohttp.reason response)).
      unfold try_get, Aiohttp.raise_for_status. rewrite Hs.
      by destruct (decide (400 ≤ Aiohttp.status response)). }
    split.
    + destruct (fetch_page_with_exhausts _ _ sample1_headers_ok session url 0
                  zero_below_float_overflow Hfail) as (Hv & Hn & _); [done|].
      split; [done|]. split; [done|].
      destruct (fetch_page_with_trace _ _ sample1_headers_ok session url 0) as [Hs _].
      unfold Sample1.fetch_page. rewrite (shape_sleeps _ _ Hs), Hn. reflexivity.
    + destruct (fetch_page_with_exhausts _ _ sample2_headers_ok session url 0
                  zero_below_float_overflow Hfail) as (Hv & Hn & _); [done|].
      split; [done|]. split; [done|].
      destruct (fetch_page_with_trace _ _ sample2_headers_ok session url 0) as [Hs _].
      unfold Sample2.fetch_page. rewrite (shape_sleeps _ _ Hs), Hn. reflexivity.
  - intros response page Hs Hcode Htext.
    assert (Hget : try_get session url 0 = Returned page).
    { unfold try_get, Aiohttp.raise_for_status. rewrite Hs.
      destruct (decide (400 ≤ Aiohttp.status response)); [lia|]. by rewrite Htext. }
    split.
    + eexists. unfold Sample1.fetch_page.
      rewrite (fetch_page_with_step _ _ sample1_headers_ok), Hget. done.
    + unfold Sample2.fetch_page.
      rewrite (fetch_page_with_step _ _ sample2_headers_ok), Hget. done.
Qed.

Lemma fetch_page_splits_statuses_at_400_witness :
  (∀ k, ∃ response, Scenario.only_a "b" k = inr response ∧ 400 ≤ Aiohttp.status response) ∧
  (Sample2.fetch_page Scenario.only_a "b" 0).2 = Returned None ∧
  attempts (Sample2.fetch_page Scenario.only_a "b" 0).1 = 4%nat ∧
  Aiohttp.status {| Aiohttp.status := 200; Aiohttp.reason := "OK";
                    Aiohttp.text := inr "<h1>A</h1>" |} < 400 ∧
  Sample2.fetch_page Scenario.only_a "a" 0 =
    ([EvGet "a" [] TIMEOUT], Returned (Some "<h1>A</h1>")).
Proof.
  assert (Hstatus : ∀ k, ∃ response,
            Scenario.only_a "b" k = inr response ∧ 400 ≤ Aiohttp.status response).
  { intros k. eexists. split; [reflexivity|]. vm_compute. discriminate. }
  assert (Hcode : Aiohttp.status {| Aiohttp.status := 200; Aiohttp.reason := "OK";
                                    Aiohttp.text := inr "<h1>A</h1>" |} < 400)
    by reflexivity.
  destruct (proj1 (fetch_page_splits_statuses_at_400 Scenario.only_a "b") Hstatus)
    as [_ (Hv & Hn & _)].
  destruct (proj2 (fetch_page_splits_statuses_at_400 Scenario.only_a "a") _ "<h1>A</h1>"
              eq_refl Hcode eq_refl) as [_ Hpage].
  split; [exact Hstatus|]. split; [exact Hv|]. split; [exact Hn|].
  split; [exact Hcode|]. exact Hpage.
Defined.
